(** * udev device-node materialization (udev_add.c) and the klibc
      passwd/group shims (klibc_fixups.c): a shallow embedding.

    C strings are modelled as [string] (the terminating NUL is the end of the
    string), C integers as [Z] with their wrap-around written out, the
    descriptor [struct udevice] as a record, the operating system as an
    explicit [world] threaded through a small state monad.  Every mutating
    system call the code attempts is appended to the world's trace, so that
    "no mutation was attempted" is a statement about that trace. *)

From Stdlib Require Import Ascii.
From stdpp Require Import base numbers option list strings pretty gmap.

Local Open Scope Z_scope.

(** ** C string helpers (libc) *)

Module CStr.

Definition slash : ascii := "/"%char.
Definition colon : ascii := ":"%char.
Definition newline : ascii := "010"%char.

Definition is_slash (c : ascii) : bool := bool_decide (c = slash).

(** [isspace] in the C locale. *)
Definition isspace (c : ascii) : bool := Ascii.is_space c.

Definition digit_val (c : ascii) : option Z :=
  let n := Z.of_N (Ascii.N_of_ascii c) in
  if (48 <=? n) && (n <=? 57) then Some (n - 48) else None.

Definition is_digit (c : ascii) : bool :=
  match digit_val c with Some _ => true | None => false end.

Fixpoint skip_space (s : string) : string :=
  match s with
  | String c r => if isspace c then skip_space r else s
  | EmptyString => s
  end.

(** Consume a run of decimal digits, accumulating their value. *)
Fixpoint scan_digits (acc : Z) (s : string) : Z * string :=
  match s with
  | String c r =>
      match digit_val c with
      | Some d => scan_digits (10 * acc + d) r
      | None => (acc, s)
      end
  | EmptyString => (acc, s)
  end.

Definition starts_with_digit (s : string) : bool :=
  match s with String c _ => is_digit c | EmptyString => false end.

(** An optional sign, as strtoul and the %u conversion accept it. *)
Definition scan_sign (s : string) : bool * string :=
  match s with
  | String "-" r => (true, r)
  | String "+" r => (false, r)
  | _ => (false, s)
  end.

(** [strtoul s &end 10] for an unsigned long of [bits] bits: the value and the
    unparsed rest.  With no digits the value is 0 and the rest is all of [s];
    a value out of range is ULONG_MAX; a minus sign negates modulo 2^bits. *)
Definition strtoul (bits : Z) (s : string) : Z * string :=
  let '(neg, s1) := scan_sign (skip_space s) in
  if starts_with_digit s1 then
    let '(v, rest) := scan_digits 0 s1 in
    if 2 ^ bits <=? v then (2 ^ bits - 1, rest)
    else ((if neg then (- v) mod 2 ^ bits else v), rest)
  else (0, s).

(** One %u conversion of scanf into an unsigned int of 32 bits: [None] when no
    number is found. *)
Definition scan_u (s : string) : option (Z * string) :=
  let '(neg, s1) := scan_sign (skip_space s) in
  if starts_with_digit s1 then
    let '(v, rest) := scan_digits 0 s1 in
    Some ((if neg then - v else v) mod 2 ^ 32, rest)
  else None.

(** [sscanf(s, "%u:%u", &a, &b)]: the return value and what was stored into
    [a] and [b] ([None]: not written).  The return value is the number of
    conversions stored, or EOF (-1) when the input ends before the first. *)
Definition sscanf_u_colon_u (s : string) : Z * option Z * option Z :=
  match scan_u s with
  | None => ((if bool_decide (skip_space s = "") then -1 else 0), None, None)
  | Some (a, r1) =>
      match r1 with
      | String c r2 =>
          if bool_decide (c = colon) then
            match scan_u r2 with
            | Some (b, _) => (2, Some a, Some b)
            | None => (1, Some a, None)
            end
          else (1, Some a, None)
      | EmptyString => (1, Some a, None)
      end
  end.

Fixpoint strtake (n : nat) (s : string) : string :=
  match n, s with
  | S n', String c r => String c (strtake n' r)
  | _, _ => ""
  end.

Fixpoint strdrop (n : nat) (s : string) : string :=
  match n, s with
  | S n', String _ r => strdrop n' r
  | _, _ => s
  end.

(** [strrchr(s, '/') != NULL] *)
Fixpoint has_slash (s : string) : bool :=
  match s with
  | String c r => is_slash c || has_slash r
  | EmptyString => false
  end.

(** [strsep(&pos, ":")]: the token, and the new [pos] ([None] is NULL: no
    delimiter was left). *)
Fixpoint strsep_colon (s : string) : string * option string :=
  match s with
  | EmptyString => ("", None)
  | String c r =>
      if bool_decide (c = colon) then ("", Some r)
      else let '(tok, pos) := strsep_colon r in (String c tok, pos)
  end.

(** printf's %u of a non-negative number. *)
Definition utoa (i : Z) : string := pretty (Z.to_N i).

End CStr.

(** ** klibc_fixups.c *)

Module Klibc.
Import CStr.

Section Shims.

(** Missing from the sources: LINE_SIZE (udev.h) and the widths of
    [unsigned long] and of [uid_t]/[gid_t]. *)
Variable LINE_SIZE : nat.
Variable ulong_bits : Z.
Variable id_bits : Z.

(** [file_map]: the content of a file, [None] when it cannot be mapped. *)
Variable file_map : string → option string.

Definition PW_FILE : string := "/etc/passwd".
Definition GR_FILE : string := "/etc/group".

(** [(unsigned long) -1] *)
Definition ULONG_MINUS_ONE : Z := (- 1) mod 2 ^ ulong_bits.

(** The lines the loop of [get_id_by_name] visits: [buf_get_line] counts up to
    the next newline (or the end of the buffer), [cur += count+1] steps over
    it, and the loop stops once [cur >= bufsize]. *)
Fixpoint buf_lines_from (line : string) (buf : string) : list string :=
  match buf with
  | EmptyString => if bool_decide (line = "") then [] else [String.rev line]
  | String c r =>
      if bool_decide (c = newline) then String.rev line :: buf_lines_from "" r
      else buf_lines_from (String c line) r
  end.

Definition buf_lines (buf : string) : list string := buf_lines_from "" buf.

(** The body of the loop on one line: [None] is `continue`, [Some id] is the
    value [id] has at `break`. *)
Definition get_id_line (uname line : string) : option Z :=
  if bool_decide (LINE_SIZE ≤ String.length line)%nat then None
  else
    let '(name, pos) := strsep_colon line in
    match pos with
    | None => None
    | Some p1 =>
        let '(_, pos) := strsep_colon p1 in
        match pos with
        | None => None
        | Some p2 =>
            let '(idstr, _) := strsep_colon p2 in
            if bool_decide (uname = name) then
              let '(id, tail) := strtoul ulong_bits idstr in
              Some (if bool_decide (tail = "") then id else ULONG_MINUS_ONE)
            else None
        end
    end.

Fixpoint get_id_loop (uname : string) (lines : list string) : Z :=
  match lines with
  | [] => ULONG_MINUS_ONE
  | line :: rest =>
      match get_id_line uname line with
      | Some id => id
      | None => get_id_loop uname rest
      end
  end.

Definition get_id_by_name (uname dbfile : string) : Z :=
  match file_map dbfile with
  | None => ULONG_MINUS_ONE
  | Some buf => get_id_loop uname (buf_lines buf)
  end.

(** [struct passwd] and [struct group] after the memset: every field but
    the id is zero and stays so. *)
Record passwd := { pw_uid : Z }.
Record group := { gr_gid : Z }.

(** The cast [(uid_t) x] of an unsigned long. *)
Definition to_id (x : Z) : Z := x mod 2 ^ id_bits.

Definition getpwnam (name : string) : option passwd :=
  let pw := {| pw_uid := to_id (get_id_by_name name PW_FILE) |} in
  if pw_uid pw <? 0 then None else Some pw.

Definition getgrnam (name : string) : option group :=
  let gr := {| gr_gid := to_id (get_id_by_name name GR_FILE) |} in
  if gr_gid gr <? 0 then None else Some gr.

(** A name is absent from a database file when the file cannot be read or no
    line of it starts with the field [name]. *)
Definition absent (name dbfile : string) : Prop :=
  match file_map dbfile with
  | None => True
  | Some buf => Forall (λ line, (strsep_colon line).1 ≠ name) (buf_lines buf)
  end.

End Shims.
End Klibc.

(** ** The operating system, as far as udev_add.c talks to it *)

Module Sys.
Import CStr.

(** File type bits of [st_mode] (<sys/stat.h>), written in octal there. *)
Definition S_IFMT : Z := 61440.   (* 0170000 *)
Definition S_IFSOCK : Z := 49152. (* 0140000 *)
Definition S_IFLNK : Z := 40960.  (* 0120000 *)
Definition S_IFREG : Z := 32768.  (* 0100000 *)
Definition S_IFBLK : Z := 24576.  (* 0060000 *)
Definition S_IFDIR : Z := 16384.  (* 0040000 *)
Definition S_IFCHR : Z := 8192.   (* 0020000 *)
Definition S_IFIFO : Z := 4096.   (* 0010000 *)
Definition ALLPERMS : Z := 4095.  (* 07777 *)
Definition EINVAL : Z := 22.
Definition IFNAMSIZ : nat := 16.

(** [makedev] as glibc encodes a device number. *)
Definition makedev (major minor : Z) : Z :=
  Z.lor (Z.lor (Z.shiftl (Z.land major 4095) 8)
               (Z.shiftl (Z.land major 4294963200) 32))
        (Z.lor (Z.land minor 255)
               (Z.shiftl (Z.land minor 4294967040) 12)).

(** What [stat] reports of a directory entry; [st_target] is the text of a
    symbolic link (empty for every other entry). *)
Record inode := Inode {
  st_ino : N;
  st_mode : Z;
  st_rdev : Z;
  st_uid : Z;
  st_gid : Z;
  st_target : string
}.

(** The calls the code makes that change something outside the process, and
    the calls into the collaborators that are not among the sources. *)
Inductive event :=
| EvMkdir (path : string) (mode : Z)
| EvUnlink (path : string)
| EvMknod (path : string) (mode dev : Z)
| EvChmod (path : string) (mode : Z)
| EvChown (path : string) (uid gid : Z)
| EvSymlink (target path : string)
| EvSocket
| EvIoctlSIOCSIFNAME (ifr_name ifr_newname : string)
| EvClose (fd : Z)
| EvSetenv (name value : string)
| EvSetfilecon (path : string) (mode : Z)
| EvSetfscreatecon (path : string) (mode : Z)
| EvSelinuxInit
| EvSelinuxRestore
| EvNameDevice
| EvDbAdd.

(** The events that mutate the filesystem, the kernel's interfaces or the
    process environment. *)
Definition mutating (e : event) : bool :=
  match e with
  | EvMkdir _ _ | EvUnlink _ | EvMknod _ _ _ | EvChmod _ _ | EvChown _ _ _
  | EvSymlink _ _ | EvSocket | EvIoctlSIOCSIFNAME _ _ | EvClose _
  | EvSetenv _ _ => true
  | _ => false
  end.

(** The world: a flat name space of directory entries keyed by the path the
    call is given (no link is followed and no path is normalised: [stat] of a
    symbolic link reports the link itself), the names of the kernel's network
    interfaces, the environment, and [refuses]: the requests the system
    turns down for a reason the model does not track (EPERM, EROFS, ...).
    [trace] lists the events in the order the code raised them. *)
Record world := World {
  files : gmap string inode;
  next_ino : N;
  umask : Z;
  netifs : gset string;
  environ : gmap string string;
  refuses : event → bool;
  trace : list event
}.

Definition M (A : Type) : Type := world → A * world.

#[global] Instance M_ret : MRet M := λ A x w, (x, w).
#[global] Instance M_bind : MBind M := λ A B f m w, let '(x, w') := m w in f x w'.

Definition set_files (fs : gmap string inode) (w : world) : world :=
  World fs (next_ino w) (umask w) (netifs w) (environ w) (refuses w) (trace w).

Definition log (e : event) (w : world) : world :=
  World (files w) (next_ino w) (umask w) (netifs w) (environ w) (refuses w)
        (trace w ++ [e]).

Definition emit (e : event) : M unit := λ w, (tt, log e w).

(** The world after the events [evs] were raised and nothing else changed. *)
Definition log_all (evs : list event) (w : world) : world :=
  World (files w) (next_ino w) (umask w) (netifs w) (environ w) (refuses w)
        (trace w ++ evs).

(** [stat(path, &stats)]: [None] when it fails.  The entry at [path] itself
    is reported: this is what the system call reports wherever that entry is
    not a symbolic link, which stat(2) would follow. *)
Definition sys_stat (path : string) : M (option inode) :=
  λ w, (files w !! path, w).

(** [unlink(path)]: fails on a missing entry and on a directory (EISDIR). *)
Definition sys_unlink (path : string) : M Z := λ w,
  let e := EvUnlink path in
  let w := log e w in
  match files w !! path with
  | Some n =>
      if refuses w e || bool_decide (Z.land (st_mode n) S_IFMT = S_IFDIR) then (-1, w)
      else (0, set_files (delete path (files w)) w)
  | None => (-1, w)
  end.

(** The types of file [mknod] creates; no type bits stand for a regular file. *)
Definition mknod_type (mode : Z) : option Z :=
  let t := Z.land mode S_IFMT in
  if bool_decide (t = 0) then Some S_IFREG
  else if bool_decide (t = S_IFREG ∨ t = S_IFCHR ∨ t = S_IFBLK ∨ t = S_IFIFO ∨ t = S_IFSOCK)
  then Some t else None.

Definition is_device_type (t : Z) : bool :=
  bool_decide (t = S_IFBLK) || bool_decide (t = S_IFCHR).

(** [mknod(path, mode, dev)]: fails on an existing entry.  The daemon runs as
    root, so the new node belongs to user and group 0. *)
Definition sys_mknod (path : string) (mode dev : Z) : M Z := λ w,
  let e := EvMknod path mode dev in
  let w := log e w in
  match files w !! path, mknod_type mode with
  | None, Some t =>
      if refuses w e then (-1, w)
      else
        let perm := Z.land (Z.land mode ALLPERMS) (Z.lnot (umask w)) in
        let node := Inode (next_ino w) (Z.lor t perm)
                          (if is_device_type t then dev else 0) 0 0 "" in
        (0, World (<[path := node]> (files w)) (N.succ (next_ino w)) (umask w)
                  (netifs w) (environ w) (refuses w) (trace w))
  | _, _ => (-1, w)
  end.

(** [chmod(path, mode)], on the entry at [path] itself: what the system call
    does wherever that entry is not a symbolic link. *)
Definition sys_chmod (path : string) (mode : Z) : M Z := λ w,
  let e := EvChmod path mode in
  let w := log e w in
  match files w !! path with
  | Some n =>
      if refuses w e then (-1, w)
      else
        let n' := Inode (st_ino n)
                        (Z.lor (Z.land (st_mode n) S_IFMT) (Z.land mode ALLPERMS))
                        (st_rdev n) (st_uid n) (st_gid n) (st_target n) in
        (0, set_files (<[path := n']> (files w)) w)
  | None => (-1, w)
  end.

(** The id [chown] leaves when asked for [new]: [(uid_t) -1] keeps the old. *)
Definition chown_id (new old : Z) : Z :=
  if bool_decide (new = 4294967295) then old else new.

(** [chown(path, uid, gid)], on the entry at [path] itself, as [sys_chmod]. *)
Definition sys_chown (path : string) (uid gid : Z) : M Z := λ w,
  let e := EvChown path uid gid in
  let w := log e w in
  match files w !! path with
  | Some n =>
      if refuses w e then (-1, w)
      else
        let n' := Inode (st_ino n) (st_mode n) (st_rdev n)
                        (chown_id uid (st_uid n)) (chown_id gid (st_gid n))
                        (st_target n) in
        (0, set_files (<[path := n']> (files w)) w)
  | None => (-1, w)
  end.

Definition sys_symlink (target path : string) : M Z := λ w,
  let e := EvSymlink target path in
  let w := log e w in
  match files w !! path with
  | None =>
      if refuses w e then (-1, w)
      else
        let node := Inode (next_ino w) (Z.lor S_IFLNK 511) 0 0 0 target in
        (0, World (<[path := node]> (files w)) (N.succ (next_ino w)) (umask w)
                  (netifs w) (environ w) (refuses w) (trace w))
  | Some _ => (-1, w)
  end.

Definition sys_mkdir (path : string) (mode : Z) : M Z := λ w,
  let e := EvMkdir path mode in
  let w := log e w in
  match files w !! path with
  | None =>
      if refuses w e then (-1, w)
      else
        let perm := Z.land (Z.land mode ALLPERMS) (Z.lnot (umask w)) in
        let node := Inode (next_ino w) (Z.lor S_IFDIR perm) 0 0 0 "" in
        (0, World (<[path := node]> (files w)) (N.succ (next_ino w)) (umask w)
                  (netifs w) (environ w) (refuses w) (trace w))
  | Some _ => (-1, w)
  end.

(** [socket(PF_INET, SOCK_DGRAM, 0)]: a descriptor, or -1. *)
Definition sys_socket : M Z := λ w,
  let w := log EvSocket w in
  if refuses w EvSocket then (-1, w) else (3, w).

Definition sys_close (fd : Z) : M Z := λ w, (0, log (EvClose fd) w).

(** [ioctl(sk, SIOCSIFNAME, &ifr)]: renames the interface [ifr_name]. *)
Definition sys_ioctl_SIOCSIFNAME (ifr_name ifr_newname : string) : M Z := λ w,
  let e := EvIoctlSIOCSIFNAME ifr_name ifr_newname in
  let w := log e w in
  if refuses w e || bool_decide (ifr_name ∉ netifs w) || bool_decide (ifr_newname ∈ netifs w)
  then (-1, w)
  else (0, World (files w) (next_ino w) (umask w)
                 ({[ifr_newname]} ∪ netifs w ∖ {[ifr_name]})
                 (environ w) (refuses w) (trace w)).

(** [setenv(name, value, 1)] *)
Definition sys_setenv (name value : string) : M Z := λ w,
  let w := log (EvSetenv name value) w in
  (0, World (files w) (next_ino w) (umask w) (netifs w)
            (<[name := value]> (environ w)) (refuses w) (trace w)).

End Sys.

(** ** udev_add.c *)

Module UdevAdd.
Import CStr Sys.

(** [struct udevice] (udev.h is not among the sources): the fields
    udev_add.c reads and writes. *)
Record udevice := Udevice {
  devpath : string;
  name : string;
  devname : string;
  kernel_name : string;
  owner : string;
  group : string;
  symlink : string;
  type : ascii;
  major : Z;
  minor : Z;
  mode : Z;
  partitions : Z;
  test_run : bool
}.

Definition set_major_minor (ma mi : Z) (u : udevice) : udevice :=
  Udevice (devpath u) (name u) (devname u) (kernel_name u) (owner u) (group u)
          (symlink u) (type u) ma mi (mode u) (partitions u) (test_run u).

Definition set_mode (m : Z) (u : udevice) : udevice :=
  Udevice (devpath u) (name u) (devname u) (kernel_name u) (owner u) (group u)
          (symlink u) (type u) (major u) (minor u) m (partitions u) (test_run u).

Definition set_devname (s : string) (u : udevice) : udevice :=
  Udevice (devpath u) (name u) s (kernel_name u) (owner u) (group u)
          (symlink u) (type u) (major u) (minor u) (mode u) (partitions u) (test_run u).

Definition set_devpath (s : string) (u : udevice) : udevice :=
  Udevice s (name u) (devname u) (kernel_name u) (owner u) (group u)
          (symlink u) (type u) (major u) (minor u) (mode u) (partitions u) (test_run u).

(** [struct sysfs_class_device], as far as it is read: its attributes. *)
Record sysfs_class_device := { attributes : gmap string string }.

Definition sysfs_get_classdev_attr (class_dev : sysfs_class_device) (attr : string)
  : option string := attributes class_dev !! attr.

(** *** String macros of udev.h and udev_utils.h *)

(** Modelled from the spec: strfieldcpy (udev.h is not among the sources),
    and snprintf followed by [buf[size-1] = 0], copy into a buffer of [size]
    bytes: the text is cut to what the buffer holds and stays terminated. *)
Definition strfieldcpy (size : nat) (from : string) : string :=
  strtake (size - 1) from.

(** Modelled from the spec: strfieldcat (udev.h is not among the sources)
    appends within a buffer of [size] bytes, cutting what does not fit. *)
Definition strfieldcat (size : nat) (to from : string) : string :=
  to +:+ strtake (size - 1 - String.length to) from.

(** Modelled from the spec: strintcat (udev.h is not among the sources)
    appends the decimal index to the text, within the buffer. *)
Definition strintcat (size : nat) (to : string) (i : Z) : string :=
  strfieldcat size to (utoa i).

(** Modelled from the spec: foreach_strpart (udev_utils.h is not among the
    sources) visits the non-empty parts of [str] between separators; the
    separator create_node passes is one space. *)
Fixpoint strparts_from (part : string) (str : string) : list string :=
  match str with
  | EmptyString => if bool_decide (part = "") then [] else [String.rev part]
  | String c r =>
      if bool_decide (c = " "%char) then
        (if bool_decide (part = "") then [] else [String.rev part]) ++ strparts_from "" r
      else strparts_from (String c part) r
  end.

(** Modelled from the spec: the parts foreach_strpart visits, in order. *)
Definition strparts (str : string) : list string := strparts_from "" str.

(** The text up to and including the last '/' ([strrchr] then [pos[1] = 0]). *)
Fixpoint upto_last_slash (s : string) : option string :=
  match s with
  | EmptyString => None
  | String c r =>
      match upto_last_slash r with
      | Some p => Some (String c p)
      | None => if is_slash c then Some (String c "") else None
      end
  end.

(** *** create_path *)

(** Modelled from the spec: the intermediate directories of [path]
    (create_path of udev_utils.c is not among the sources), the deepest
    first: the text before each '/' that is neither the first character nor
    preceded by a '/'. *)
Fixpoint parent_dirs_from (pre : string) (path : string) (acc : list string) : list string :=
  match path with
  | EmptyString => acc
  | String c r =>
      let acc' :=
        match pre with
        | EmptyString => acc
        | String p _ =>
            if is_slash c && negb (is_slash p) then String.rev pre :: acc else acc
        end in
      parent_dirs_from (String c pre) r acc'
  end.

(** Modelled from the spec: the directories create_path has to provide. *)
Definition parent_dirs (path : string) : list string := parent_dirs_from "" path [].

(** [stat] succeeded and [S_ISDIR(st_mode)]. *)
Definition is_dir (st : option inode) : bool :=
  match st with
  | Some n => bool_decide (Z.land (st_mode n) S_IFMT = S_IFDIR)
  | None => false
  end.

(** Modelled from the spec: mkdir -p over the directories [dirs] (create_path
    is not among the sources): a directory that exists ends the work, a
    missing one is made with mode 0755 once its parents are there. *)
Fixpoint create_dirs (dirs : list string) : M Z :=
  match dirs with
  | [] => mret 0
  | p :: parents =>
      st ← sys_stat p;
      if is_dir st then mret 0
      else
        r ← create_dirs parents;
        if bool_decide (r ≠ 0) then mret (-1) else sys_mkdir p 493 (* 0755 *)
  end.

(** Modelled from the spec: create_path (udev_utils.c is not among the
    sources) creates the intermediate directories of [path] with mkdir -p
    semantics: a directory that exists is left alone, a missing one is made
    after its parents. *)
Definition create_path (path : string) : M Z := create_dirs (parent_dirs path).

Section Core.

(** Missing from the sources: the buffer sizes of udev.h, the configured
    root directory, the naming and persistence collaborators, and the
    user and group lookup of libc (or of klibc_fixups.c). *)
Variable NAME_SIZE : nat.
Variable DEVPATH_SIZE : nat.
Variable udev_root : string.
Variable namedev_name_device : udevice → sysfs_class_device → Z * udevice.
Variable udev_db_add_device : udevice → Z.
Variable getpwnam : string → option Z.
Variable getgrnam : string → option Z.

(** [snprintf(buf, NAME_SIZE, "%s/%s", udev_root, rel); buf[NAME_SIZE-1] = 0] *)
Definition root_path (rel : string) : string :=
  strfieldcpy NAME_SIZE (udev_root +:+ "/" +:+ rel).

Definition get_major_minor (class_dev : sysfs_class_device) (udev : udevice)
  : Z * udevice :=
  match sysfs_get_classdev_attr class_dev "dev" with
  | None => (-1, udev)
  | Some value =>
      let '(n, a, b) := sscanf_u_colon_u value in
      let udev := set_major_minor (default (major udev) a) (default (minor udev) b) udev in
      if bool_decide (n ≠ 2) then (-1, udev) else (0, udev)
  end.

(** The label `perms:` of make_node, entered with the current [retval]. *)
Definition make_node_perms (retval : Z) (file : string) (mode uid gid : Z) : M Z :=
  r ← sys_chmod file mode;
  if bool_decide (r ≠ 0) then mret retval
  else if bool_decide (uid ≠ 0) || bool_decide (gid ≠ 0) then
    r ← sys_chown file uid gid;
    if bool_decide (r ≠ 0) then mret retval else mret retval
  else mret retval.

(** The label `create:` of make_node. *)
Definition make_node_create (file : string) (major minor mode uid gid : Z) : M Z :=
  emit (EvSetfscreatecon file mode);;
  retval ← sys_mknod file mode (makedev major minor);
  if bool_decide (retval ≠ 0) then mret retval
  else make_node_perms retval file mode uid gid.

Definition make_node (file : string) (major minor mode uid gid : Z) : M Z :=
  let retval := 0 in
  st ← sys_stat file;
  match st with
  | None => make_node_create file major minor mode uid gid
  | Some stats =>
      if is_device_type (Z.land (st_mode stats) S_IFMT)
         && bool_decide (st_rdev stats = makedev major minor)
      then
        emit (EvSetfilecon file (st_mode stats));;
        make_node_perms retval file mode uid gid
      else
        sys_unlink file;;
        make_node_create file major minor mode uid gid
  end.

(** The type bit create_node folds into the mode; [None] is the default
    case of the switch. *)
Definition type_bits (t : ascii) : option Z :=
  if bool_decide (t = "b"%char) then Some S_IFBLK
  else if bool_decide (t = "c"%char) || bool_decide (t = "u"%char) then Some S_IFCHR
  else if bool_decide (t = "p"%char) then Some S_IFIFO
  else None.

(** The owner (or group) field resolved to an id: a number is taken as it
    is (an unsigned long of 64 bits, cast to a uid_t of 32), a name is looked
    up, an unknown name leaves 0. *)
Definition resolve_id (lookup : string → option Z) (field : string) : Z :=
  if bool_decide (field = "") then 0
  else
    let '(id, endptr) := strtoul 64 field in
    if bool_decide (endptr = "") then id mod 2 ^ 32
    else match lookup field with
         | None => 0
         | Some id => id
         end.

(** The first loop of `optimize relative link`: [i] and [tail] when it
    stops. *)
Fixpoint common_prefix (name linkname : string) (i tail : nat) : nat * nat :=
  match name, linkname with
  | String a name', String b linkname' =>
      if bool_decide (a = b) then
        common_prefix name' linkname' (S i) (if is_slash a then S i else tail)
      else (i, tail)
  | _, _ => (i, tail)
  end.

(** The second loop: one "../" for every '/' of the rest of [linkname]. *)
Fixpoint dotdots (linktarget : string) (rest : string) : string :=
  match rest with
  | EmptyString => linktarget
  | String c r =>
      dotdots (if is_slash c then strfieldcat NAME_SIZE linktarget "../" else linktarget) r
  end.

Definition link_target (name linkname : string) : string :=
  let '(i, tail) := common_prefix name linkname 0 0 in
  let linktarget := dotdots "" (strdrop i linkname) in
  strfieldcat NAME_SIZE linktarget (strdrop tail name).

(** The body of the loop over the symlink list. *)
Definition create_symlink (udev : udevice) (linkname : string) : M unit :=
  let filename := root_path linkname in
  (if negb (test_run udev) && has_slash linkname
   then create_path filename ;; mret tt else mret tt);;
  let linktarget := link_target (name udev) linkname in
  if negb (test_run udev) then
    emit (EvSetfscreatecon filename S_IFLNK);;
    sys_unlink filename;;
    sys_symlink linktarget filename;;
    mret tt
  else mret tt.

Fixpoint for_each {A : Type} (l : list A) (body : A → M unit) : M unit :=
  match l with
  | [] => mret tt
  | x :: l' => body x;; for_each l' body
  end.

(** The body of the loop over the partitions. *)
Definition create_partition (udev : udevice) (filename : string) (uid gid : Z)
    (i : Z) : M unit :=
  let partitionname := strintcat NAME_SIZE (strfieldcpy NAME_SIZE filename) i in
  make_node partitionname (major udev) (minor udev + i) (mode udev) uid gid;;
  mret tt.

Definition create_node (udev : udevice) : M (Z * udevice) :=
  let filename := root_path (name udev) in
  match type_bits (type udev) with
  | None => mret (- EINVAL, udev)
  | Some bit =>
      let udev := set_mode (Z.lor (mode udev) bit) udev in
      (if has_slash (name udev) then create_path filename;; mret tt else mret tt);;
      let uid := resolve_id getpwnam (owner udev) in
      let gid := resolve_id getgrnam (group udev) in
      r ← (if negb (test_run udev)
           then make_node filename (major udev) (minor udev) (mode udev) uid gid
           else mret 0);
      if bool_decide (r ≠ 0) then mret (-1, udev)
      else
        (if bool_decide (0 < partitions udev) && negb (test_run udev)
         then for_each (seqZ 1 (partitions udev)) (create_partition udev filename uid gid)
         else mret tt);;
        for_each (strparts (symlink udev)) (create_symlink udev);;
        mret (0, udev)
  end.

Definition rename_net_if (udev : udevice) : M Z :=
  if test_run udev then mret 0
  else
    sk ← sys_socket;
    if bool_decide (sk < 0) then mret (-1)
    else
      retval ← sys_ioctl_SIOCSIFNAME (strfieldcpy IFNAMSIZ (kernel_name udev))
                                    (strfieldcpy IFNAMSIZ (name udev));
      sys_close sk;;
      mret retval.

Definition is_b_or_c (t : ascii) : bool :=
  bool_decide (t = "b"%char) || bool_decide (t = "c"%char).

(** The `n` branch of udev_add_device, once the interface was renamed. *)
Definition fake_devpath (udev : udevice) : M udevice :=
  udev ← match upto_last_slash (devpath udev) with
         | Some dir =>
             let udev := set_devpath (strfieldcat DEVPATH_SIZE dir (name udev)) udev in
             sys_setenv "DEVPATH" (devpath udev);;
             mret udev
         | None => mret udev
         end;
  mret (set_devname (strfieldcpy NAME_SIZE (name udev)) udev).

(** The part of udev_add_device between the naming call and `exit:`. *)
Definition add_named_device (udev : udevice) : M (Z * udevice) :=
  if is_b_or_c (type udev) then
    '(retval, udev) ← create_node udev;
    if bool_decide (retval ≠ 0) then mret (retval, udev)
    else
      emit EvDbAdd;;
      let _ := udev_db_add_device udev in
      mret (retval, set_devname (root_path (name udev)) udev)
  else if bool_decide (type udev = "n"%char) then
    if bool_decide (name udev ≠ kernel_name udev) then
      retval ← rename_net_if udev;
      if bool_decide (retval ≠ 0) then mret (retval, udev)
      else
        udev ← fake_devpath udev;
        mret (retval, udev)
    else mret (0, udev)
  else mret (0, udev).

Definition udev_add_device (udev : udevice) (class_dev : sysfs_class_device)
  : M (Z * udevice) :=
  let resolved :=
    if is_b_or_c (type udev) then get_major_minor class_dev udev else (0, udev) in
  if bool_decide (resolved.1 ≠ 0) then mret (0, resolved.2)
  else
    let udev := resolved.2 in
    emit EvNameDevice;;
    let '(named, udev) := namedev_name_device udev class_dev in
    if bool_decide (named ≠ 0) then
      emit EvSelinuxRestore;;
      mret (0, udev)
    else
      emit EvSelinuxInit;;
      '(retval, udev) ← add_named_device udev;
      emit EvSelinuxRestore;;
      mret (retval, udev).

End Core.
End UdevAdd.

(** ** Path names, as the system resolves them

    What a path denotes: the directories walked from the root, innermost
    first.  An empty segment and "." stay, ".." steps up (and stays at the
    root).  Links are not followed. *)

Module Path.
Import CStr.

(** The segments of a path between its '/' characters. *)
Fixpoint segments (path : string) : list string :=
  match path with
  | EmptyString => [""]
  | String c r =>
      if is_slash c then "" :: segments r
      else match segments r with
           | s :: l => String c s :: l
           | [] => [String c ""]
           end
  end.

Definition step (cwd : list string) (seg : string) : list string :=
  if bool_decide (seg = "" ∨ seg = ".") then cwd
  else if bool_decide (seg = "..") then tail cwd
  else seg :: cwd.

Definition walk (cwd : list string) (segs : list string) : list string :=
  foldl step cwd segs.

Definition is_absolute (path : string) : bool :=
  match path with String c _ => is_slash c | EmptyString => false end.

(** What [path] denotes when resolved from the directory [cwd]. *)
Definition resolve (cwd : list string) (path : string) : list string :=
  walk (if is_absolute path then [] else cwd) (segments path).

(** The directory that contains the entry [path] names. *)
Definition containing_dir (path : string) : list string :=
  walk [] (removelast (segments path)).

(** A segment that names an entry: not empty, not "." and not "..". *)
Definition plain (seg : string) : Prop := seg ≠ "" ∧ seg ≠ "." ∧ seg ≠ "..".

Fixpoint count_slashes (s : string) : nat :=
  match s with
  | EmptyString => 0
  | String c r => (if is_slash c then 1 else 0) + count_slashes r
  end.

End Path.

(** ** Notions the properties below are stated with *)

Module Notions.
Import CStr Sys UdevAdd.

(** What get_major_minor leaves in [major] when it fails: the number the
    text of the attribute starts with, when it starts with one. *)
Definition major_after_failure (class_dev : sysfs_class_device) (udev : udevice) : Z :=
  match sysfs_get_classdev_attr class_dev "dev" ≫= scan_u with
  | Some (a, _) => a
  | None => major udev
  end.

(** The events after the naming call when nothing is created or renamed. *)
Definition naming_only (named : Z) : list event :=
  if bool_decide (named ≠ 0) then [EvNameDevice; EvSelinuxRestore]
  else [EvNameDevice; EvSelinuxInit; EvSelinuxRestore].

(** The node at [file] already has the permissions and owner that
    make_node's `perms:` step would give it, as far as the system lets that
    step run. *)
Definition settled (file : string) (mode uid gid : Z) (w : world) (node : inode) : Prop :=
  files w !! file = Some node
  ∧ (refuses w (EvChmod file mode) = false →
     st_mode node = Z.lor (Z.land (st_mode node) S_IFMT) (Z.land mode ALLPERMS)
     ∧ (bool_decide (uid ≠ 0) || bool_decide (gid ≠ 0) = true →
        refuses w (EvChown file uid gid) = false →
        chown_id uid (st_uid node) = st_uid node
        ∧ chown_id gid (st_gid node) = st_gid node)).

(** The events of the `perms:` step. *)
Definition perms_event (e : event) : bool :=
  match e with EvChmod _ _ | EvChown _ _ _ | EvSetfilecon _ _ => true | _ => false end.

(** The call that led from [w] to [w'] kept what the system refuses and the
    entry at [p], if there was one. *)
Definition stable (p : string) (w w' : world) : Prop :=
  refuses w' = refuses w ∧ ∀ n, files w !! p = Some n → files w' !! p = Some n.

(** [k] times "../". *)
Fixpoint updirs (k : nat) : string :=
  match k with
  | O => ""
  | S k' => "../" +:+ updirs k'
  end.

(** A symbolic link, a directory stands at [p]. *)
Definition link_at (p : string) (w : world) : bool :=
  match files w !! p with
  | Some n => bool_decide (Z.land (st_mode n) S_IFMT = S_IFLNK)
  | None => false
  end.

Definition dir_at (p : string) (w : world) : bool :=
  match files w !! p with
  | Some n => bool_decide (Z.land (st_mode n) S_IFMT = S_IFDIR)
  | None => false
  end.

(** The entry at [p], if there is one, is neither a symbolic link nor a
    directory.  There stat, chmod and chown, which follow a link, act on the
    entry at [p] itself, as the model has them, and unlink removes it. *)
Definition plain_at (p : string) (w : world) : bool :=
  negb (link_at p w) && negb (dir_at p w).




End Notions.

(** ** Concrete inputs the examples below run the code on *)

Module Samples.
Import CStr Sys UdevAdd.

Definition quiet (e : event) : bool := false.

(** An empty /udev tree on a system that refuses nothing. *)
Definition empty_world : world :=
  World {[ "/udev" := Inode 2 (Z.lor S_IFDIR 493) 0 0 0 "" ]} 3 0
        {[ "lo"; "eth0" ]} ∅ quiet [].

(** The same, on a system that refuses every chmod. *)
Definition no_chmod (e : event) : bool :=
  match e with EvChmod _ _ => true | _ => false end.

Definition chmod_refused_world : world :=
  World (files empty_world) 3 0 (netifs empty_world) ∅ no_chmod [].

Definition sda : udevice :=
  Udevice "/block/sda" "" "" "sda" "" "" "" "b"%char 0 0 432 0 false.


Definition eth0 : udevice :=
  Udevice "/class/net/eth0" "" "" "eth0" "" "" "" "n"%char 0 0 0 0 false.

Definition with_type (t : ascii) (u : udevice) : udevice :=
  Udevice (devpath u) (name u) (devname u) (kernel_name u) (owner u) (group u)
          (symlink u) t (major u) (minor u) (mode u) (partitions u) (test_run u).

Definition with_test_run (u : udevice) : udevice :=
  Udevice (devpath u) (name u) (devname u) (kernel_name u) (owner u) (group u)
          (symlink u) (type u) (major u) (minor u) (mode u) (partitions u) true.

Definition class_dev_of (dev : string) : sysfs_class_device :=
  {| attributes := {[ "dev" := dev ]} |}.

Definition no_attributes : sysfs_class_device := {| attributes := ∅ |}.

(** A naming collaborator that always decides the same name, symlink list
    and partition count, and one that keeps the kernel's name. *)
Definition name_as (nm links : string) (parts : Z)
    (u : udevice) (_ : sysfs_class_device) : Z * udevice :=
  (0, Udevice (devpath u) nm (devname u) (kernel_name u) (owner u) (group u)
              links (type u) (major u) (minor u) (mode u) parts (test_run u)).

Definition name_as_kernel (u : udevice) (c : sysfs_class_device) : Z * udevice :=
  name_as (kernel_name u) "" 0 u c.

Definition db_ok (_ : udevice) : Z := 0.
Definition nobody (_ : string) : option Z := None.

Definition passwd_file (path : string) : option string :=
  if bool_decide (path = "/etc/passwd") then
    Some ("root:x:0:0:root:/root:/bin/sh" +:+ String newline "kay:x:500:500::/home/kay:/bin/sh")
  else None.

End Samples.

(** ** Notions of the further properties *)

Module MoreNotions.
Import CStr Sys UdevAdd Klibc Notions.

(** The number of ':' in a line of a database file. *)
Fixpoint count_colons (s : string) : nat :=
  match s with
  | EmptyString => 0
  | String c r => (if bool_decide (c = colon) then 1 else 0) + count_colons r
  end.

(** The loop of get_id_by_name passes over a line that is too long, has
    fewer than three fields, or starts with another name. *)
Definition passed_over (LINE_SIZE : nat) (uname line : string) : Prop :=
  (LINE_SIZE ≤ String.length line)%nat
  ∨ (count_colons line < 2)%nat
  ∨ (strsep_colon line).1 ≠ uname.

(** A line "name:passwd:id" of a database file, with what follows the id
    field ([more] is empty or starts with ':'). *)
Definition db_line (name passwd idstr more : string) : string :=
  name +:+ ":" +:+ passwd +:+ ":" +:+ idstr +:+ more.

(** The lookup create_node gets from the klibc shim: the uid of the record
    getpwnam returns (LP64: unsigned long of 64 bits, uid_t of 32). *)
Definition klibc_uid (LINE_SIZE : nat) (file_map : string → option string)
    (name : string) : option Z :=
  pw_uid <$> getpwnam LINE_SIZE 64 32 file_map name.

Definition is_mkdir (e : event) : bool :=
  match e with EvMkdir _ _ => true | _ => false end.

(** The requests make_node makes for [file]. *)
Definition node_request (file : string) (e : event) : bool :=
  match e with
  | EvSetfilecon f _ | EvSetfscreatecon f _ | EvUnlink f | EvMknod f _ _
  | EvChmod f _ | EvChown f _ _ => bool_decide (f = file)
  | _ => false
  end.

(** Everything of the world but its directory entries, inode counter and
    trace. *)
Definition same_surroundings (w w' : world) : Prop :=
  umask w' = umask w ∧ netifs w' = netifs w ∧ environ w' = environ w
  ∧ refuses w' = refuses w.


(** The owner the node at [file] has when make_node comes to its `perms:`
    step: that of the node it preserves, and 0:0 for a node it makes. *)
Definition owner_before (file : string) (major minor : Z) (w : world) : Z * Z :=
  match files w !! file with
  | Some old =>
      if is_device_type (Z.land (st_mode old) S_IFMT)
         && bool_decide (st_rdev old = makedev major minor)
      then (st_uid old, st_gid old) else (0, 0)
  | None => (0, 0)
  end.

(** The system refuses nothing and an entry that is no directory stands at
    [p]. *)
Definition held (p : string) (w : world) : Prop :=
  (∀ e, refuses w e = false) ∧ is_Some (files w !! p) ∧ dir_at p w = false.

(** The call that led from [w] to [w'] changed no entry but the one at
    [file], and nothing of the surroundings. *)
Definition only_at (file : string) (w w' : world) : Prop :=
  same_surroundings w w' ∧ ∀ p, p ≠ file → files w' !! p = files w !! p.

End MoreNotions.

(** ** Further concrete inputs *)

Module MoreSamples.
Import CStr Sys UdevAdd Samples.

(** The "dev" file of sdb as the kernel writes it, newline included. *)
Definition sdb_dev : sysfs_class_device :=
  class_dev_of ("8:16" +:+ String newline "").

(** The first line of kay has a damaged id field, the second one is sound. *)
Definition damaged_passwd_file (path : string) : option string :=
  if bool_decide (path = "/etc/passwd") then
    Some ("kay:x:5oo:500::/home/kay:/bin/sh"
          +:+ String newline "kay:x:500:500::/home/kay:/bin/sh")
  else None.

(** An empty /udev tree on a system that refuses every mknod. *)
Definition no_mknod (e : event) : bool :=
  match e with EvMknod _ _ _ => true | _ => false end.

Definition mknod_refused_world : world :=
  World (files empty_world) 3 0 (netifs empty_world) ∅ no_mknod [].

(** /udev with the char node ttyS0 (4, 64), mode 0600, owned by uid 500. *)
Definition ttyS0_world : world :=
  World (<[ "/udev/ttyS0" := Inode 3 (Z.lor S_IFCHR 384) (makedev 4 64) 500 0 "" ]>
           (files empty_world))
        4 0 (netifs empty_world) ∅ quiet [].

(** A naming collaborator that fails. *)
Definition name_fails (u : udevice) (_ : sysfs_class_device) : Z * udevice := (1, u).

End MoreSamples.

(** * Properties *)

(** ** The klibc shims *)

Section KlibcProperties.
Import CStr Klibc.

Variable LINE_SIZE : nat.
Variables ulong_bits id_bits : Z.
Variable file_map : string → option string.

Lemma get_id_line_matches uname line id :
  get_id_line LINE_SIZE ulong_bits uname line = Some id →
  (strsep_colon line).1 = uname.
Proof.
  unfold get_id_line. case_bool_decide; [done|].
  destruct (strsep_colon line) as [nm [p1|]]; [|done].
  destruct (strsep_colon p1) as [? [p2|]]; [|done].
  destruct (strsep_colon p2) as [idstr ?].
  case_bool_decide; [|done]. by subst.
Qed.

Lemma get_id_loop_absent uname lines :
  Forall (λ line, (strsep_colon line).1 ≠ uname) lines →
  get_id_loop LINE_SIZE ulong_bits uname lines = ULONG_MINUS_ONE ulong_bits.
Proof.
  induction 1 as [|line rest Hline _ IH]; simpl; [done|].
  destruct (get_id_line _ _ _ line) as [id|] eqn:E; [|done].
  by apply get_id_line_matches in E.
Qed.

Lemma get_id_by_name_absent uname dbfile :
  absent file_map uname dbfile →
  get_id_by_name LINE_SIZE ulong_bits file_map uname dbfile = ULONG_MINUS_ONE ulong_bits.
Proof.
  unfold absent, get_id_by_name. destruct (file_map dbfile); [|done].
  apply get_id_loop_absent.
Qed.

Lemma to_id_nonneg x : 0 ≤ id_bits → 0 ≤ to_id id_bits x.
Proof. intros. unfold to_id. apply Z.mod_pos_bound. by apply Z.pow_pos_nonneg. Qed.

Lemma ulong_minus_one : 0 ≤ ulong_bits → ULONG_MINUS_ONE ulong_bits = 2 ^ ulong_bits - 1.
Proof.
  intros. unfold ULONG_MINUS_ONE.
  assert (0 < 2 ^ ulong_bits) by (by apply Z.pow_pos_nonneg).
  symmetry. apply (Z.mod_unique_pos _ _ (- 1)); lia.
Qed.

Lemma to_id_minus_one :
  0 < id_bits ≤ ulong_bits →
  to_id id_bits (ULONG_MINUS_ONE ulong_bits) = 2 ^ id_bits - 1.
Proof.
  intros [Hpos Hle]. unfold to_id, ULONG_MINUS_ONE.
  assert (0 < 2 ^ id_bits) by (apply Z.pow_pos_nonneg; lia).
  assert (0 < 2 ^ ulong_bits) by (apply Z.pow_pos_nonneg; lia).
  assert (2 ^ ulong_bits = 2 ^ id_bits * 2 ^ (ulong_bits - id_bits)) as Hsplit.
  { rewrite <- Z.pow_add_r by lia. f_equal. lia. }
  assert ((- 1) mod 2 ^ ulong_bits = 2 ^ ulong_bits - 1) as ->.
  { symmetry. apply (Z.mod_unique_pos _ _ (- 1)); lia. }
  symmetry. apply (Z.mod_unique_pos _ _ (2 ^ (ulong_bits - id_bits) - 1)); lia.
Qed.

(** C10: the tests [pw.pw_uid < 0] and [gr.gr_gid < 0] are never true, so
    getpwnam and getgrnam never return NULL; for a name that is absent from
    the database file, get_id_by_name returns [(unsigned long) -1] and the
    two functions return a record whose id is [(uid_t) -1], that is 2^w - 1
    for ids of w bits. *)
Theorem klibc_lookup_never_null name :
  0 < id_bits ≤ ulong_bits →
  getpwnam LINE_SIZE ulong_bits id_bits file_map name ≠ None
  ∧ getgrnam LINE_SIZE ulong_bits id_bits file_map name ≠ None
  ∧ (absent file_map name PW_FILE →
     get_id_by_name LINE_SIZE ulong_bits file_map name PW_FILE = 2 ^ ulong_bits - 1
     ∧ getpwnam LINE_SIZE ulong_bits id_bits file_map name
       = Some {| pw_uid := 2 ^ id_bits - 1 |})
  ∧ (absent file_map name GR_FILE →
     get_id_by_name LINE_SIZE ulong_bits file_map name GR_FILE = 2 ^ ulong_bits - 1
     ∧ getgrnam LINE_SIZE ulong_bits id_bits file_map name
       = Some {| gr_gid := 2 ^ id_bits - 1 |}).
Proof.
  intros Hbits.
  assert (∀ x, (to_id id_bits x <? 0) = false) as Hnever.
  { intros x. apply Z.ltb_ge, to_id_nonneg. lia. }
  unfold getpwnam, getgrnam. simpl. rewrite !Hnever.
  split_and!; try done.
  - intros Habs. rewrite get_id_by_name_absent by done.
    split; [apply ulong_minus_one; lia|by rewrite to_id_minus_one].
  - intros Habs. rewrite get_id_by_name_absent by done.
    split; [apply ulong_minus_one; lia|by rewrite to_id_minus_one].
Qed.

End KlibcProperties.

(** On a 64-bit system with ids of 32 bits, the name "greg" is in no line of
    the sample passwd file, and no group file can be read. *)
Lemma klibc_lookup_never_null_witness :
  Klibc.getpwnam 512 64 32 Samples.passwd_file "greg" = Some {| Klibc.pw_uid := 4294967295 |}
  ∧ Klibc.getgrnam 512 64 32 Samples.passwd_file "greg" = Some {| Klibc.gr_gid := 4294967295 |}.
Proof.
  pose proof (klibc_lookup_never_null 512 64 32 Samples.passwd_file "greg"
                ltac:(lia)) as (_ & _ & Hpw & Hgr).
  split.
  - apply Hpw. vm_compute. repeat constructor; discriminate.
  - apply Hgr. vm_compute. exact I.
Defined.

(** ** The major/minor resolver *)

Section Resolver.
Import CStr Sys UdevAdd Notions.

Lemma sscanf_partial value n a b :
  sscanf_u_colon_u value = (n, a, b) →
  n ≠ 2 →
  b = None ∧ a = fst <$> scan_u value.
Proof.
  unfold sscanf_u_colon_u. destruct (scan_u value) as [[x r1]|]; simpl.
  - destruct r1 as [|c r2]; [naive_solver|].
    case_bool_decide; [|naive_solver].
    destruct (scan_u r2) as [[y ?]|]; naive_solver.
  - naive_solver.
Qed.


(** C5, as the code has it: when get_major_minor fails, [minor] and every
    other field but [major] hold what they held before; [major] is unchanged
    when the attribute is missing or its text does not start with a number,
    and otherwise holds that number (sscanf stored the first conversion
    before the second one failed). *)
Theorem get_major_minor_failure class_dev udev :
  (get_major_minor class_dev udev).1 ≠ 0 →
  get_major_minor class_dev udev
  = (-1, set_major_minor (major_after_failure class_dev udev) (minor udev) udev).
Proof.
  unfold get_major_minor, major_after_failure.
  destruct (sysfs_get_classdev_attr class_dev "dev") as [value|]; simpl.
  - destruct (sscanf_u_colon_u value) as [[n a] b] eqn:E.
    case_bool_decide as Hn; simpl; [intros _|done].
    destruct (sscanf_partial _ _ _ _ E Hn) as [-> ->].
    by destruct (scan_u value) as [[x r]|].
  - intros _. by destruct udev.
Qed.

Lemma get_major_minor_keeps_names class_dev udev :
  let udev' := (get_major_minor class_dev udev).2 in
  devname udev' = devname udev ∧ devpath udev' = devpath udev
  ∧ name udev' = name udev ∧ type udev' = type udev.
Proof.
  unfold get_major_minor.
  destruct (sysfs_get_classdev_attr class_dev "dev") as [value|]; simpl; [|done].
  destruct (sscanf_u_colon_u value) as [[n a] b]. by case_bool_decide.
Qed.

End Resolver.

(** The attribute "8:" stops the scan after the first number. *)
Lemma get_major_minor_failure_witness :
  UdevAdd.get_major_minor (Samples.class_dev_of "8:") Samples.sda
  = (-1, UdevAdd.set_major_minor 8 0 Samples.sda).
Proof.
  apply (get_major_minor_failure (Samples.class_dev_of "8:") Samples.sda).
  vm_compute. discriminate.
Defined.

(** Against C5 as stated: on the attribute "8:" get_major_minor fails and
    [major], 0 before the call, is 8 after it. *)
Lemma get_major_minor_failure_changes_major :
  ¬ ((UdevAdd.get_major_minor (Samples.class_dev_of "8:") Samples.sda).1 ≠ 0 →
     UdevAdd.major (UdevAdd.get_major_minor (Samples.class_dev_of "8:") Samples.sda).2
     = UdevAdd.major Samples.sda).
Proof. intros H. vm_compute in H. by specialize (H ltac:(discriminate)). Qed.

(** ** The entry point *)

Section EntryPoint.
Import CStr Sys UdevAdd Notions.

Variables NAME_SIZE DEVPATH_SIZE : nat.
Variable udev_root : string.
Variable namedev_name_device : udevice → sysfs_class_device → Z * udevice.
Variable udev_db_add_device : udevice → Z.
Variables getpwnam getgrnam : string → option Z.

Local Abbreviation add_device :=
  (udev_add_device NAME_SIZE DEVPATH_SIZE udev_root namedev_name_device
                   udev_db_add_device getpwnam getgrnam).

Local Ltac run := unfold mbind, M_bind, mret, M_ret, emit; simpl.
Local Ltac same_trace := unfold log, log_all; simpl; by rewrite <- ?app_assoc.

(** C9: when the device is of type block or char and get_major_minor fails,
    udev_add_device returns 0 and does nothing else: the world, trace
    included, is the one it was given (no naming call, no node), and the
    descriptor is the one get_major_minor left, with [devname], [devpath]
    and [name] as they were. *)
Theorem resolution_miss_is_noop udev class_dev w :
  is_b_or_c (type udev) = true →
  (get_major_minor class_dev udev).1 ≠ 0 →
  add_device udev class_dev w = ((0, (get_major_minor class_dev udev).2), w)
  ∧ devname (get_major_minor class_dev udev).2 = devname udev
  ∧ devpath (get_major_minor class_dev udev).2 = devpath udev
  ∧ name (get_major_minor class_dev udev).2 = name udev.
Proof.
  intros Htype Hfail. split.
  - unfold udev_add_device. rewrite Htype. by rewrite bool_decide_true.
  - by destruct (get_major_minor_keeps_names class_dev udev) as (? & ? & ? & _).
Qed.


Lemma naming_only_not_mutating named :
  Forall (λ e, mutating e = false) (naming_only named).
Proof. unfold naming_only. case_bool_decide; repeat constructor. Qed.

(** C1, as the code has it: for a descriptor whose type is none of 'b',
    'c' and 'n', before and after naming, udev_add_device returns 0
    (success); it calls the naming collaborator and hands back the
    descriptor as that call left it, and raises no mutating event: files,
    interfaces and environment are untouched, [devname] is not written. *)
Theorem other_type_succeeds_without_mutation udev class_dev w :
  let named := namedev_name_device udev class_dev in
  is_b_or_c (type udev) = false →
  is_b_or_c (type named.2) = false →
  type named.2 ≠ "n"%char →
  add_device udev class_dev w = ((0, named.2), log_all (naming_only named.1) w)
  ∧ Forall (λ e, mutating e = false) (naming_only named.1).
Proof.
  intros named Hin Hb Hn. split; [|apply naming_only_not_mutating].
  unfold udev_add_device, naming_only. rewrite Hin. simpl. run.
  fold named. destruct named as [r u'] eqn:E. simpl in *.
  case_bool_decide; run; [same_trace|].
  unfold add_named_device. rewrite Hb. rewrite bool_decide_false by done. run.
  same_trace.
Qed.

(** C4, as the code has it: for a network descriptor whose resolved name
    equals [kernel_name], udev_add_device returns 0, raises no mutating
    event (no socket, no rename ioctl, no setenv) and hands back the
    descriptor exactly as the naming collaborator left it: [devname] is not
    written. *)
Theorem net_same_name_no_rename udev class_dev w :
  let named := namedev_name_device udev class_dev in
  type udev = "n"%char →
  type named.2 = "n"%char →
  name named.2 = kernel_name named.2 →
  add_device udev class_dev w = ((0, named.2), log_all (naming_only named.1) w)
  ∧ Forall (λ e, mutating e = false) (naming_only named.1).
Proof.
  intros named Hin Hn Hname. split; [|apply naming_only_not_mutating].
  unfold udev_add_device, naming_only. rewrite Hin. simpl. run.
  fold named. destruct named as [r u'] eqn:E. simpl in *.
  case_bool_decide; run; [same_trace|].
  unfold add_named_device, is_b_or_c. rewrite Hn. simpl.
  rewrite bool_decide_false by (by rewrite Hname; intros []). run.
  same_trace.
Qed.

End EntryPoint.

(** A block device whose sysfs entry has no "dev" attribute. *)
Lemma resolution_miss_is_noop_witness :
  UdevAdd.udev_add_device 256 256 "/udev" Samples.name_as_kernel Samples.db_ok
    Samples.nobody Samples.nobody Samples.sda Samples.no_attributes Samples.empty_world
  = ((0, Samples.sda), Samples.empty_world).
Proof.
  refine (proj1 (resolution_miss_is_noop 256 256 "/udev" Samples.name_as_kernel
            Samples.db_ok Samples.nobody Samples.nobody Samples.sda
            Samples.no_attributes Samples.empty_world _ _)).
  - reflexivity.
  - vm_compute. discriminate.
Defined.

(** A descriptor of type 'p' (neither block, char nor network). *)
Lemma other_type_succeeds_without_mutation_witness :
  UdevAdd.udev_add_device 256 256 "/udev" Samples.name_as_kernel Samples.db_ok
    Samples.nobody Samples.nobody
    (Samples.with_type "p" Samples.sda) Samples.no_attributes Samples.empty_world
  = ((0, (Samples.name_as_kernel (Samples.with_type "p" Samples.sda)
            Samples.no_attributes).2),
     Sys.log_all [Sys.EvNameDevice; Sys.EvSelinuxInit; Sys.EvSelinuxRestore]
       Samples.empty_world).
Proof.
  refine (proj1 (other_type_succeeds_without_mutation 256 256 "/udev"
            Samples.name_as_kernel Samples.db_ok Samples.nobody Samples.nobody
            (Samples.with_type "p" Samples.sda) Samples.no_attributes
            Samples.empty_world _ _ _)).
  - reflexivity.
  - reflexivity.
  - vm_compute. discriminate.
Defined.

(** Against C1 as stated: for the type 'p' the entry point does not fail. *)
Lemma other_type_does_not_fail :
  ¬ ((UdevAdd.udev_add_device 256 256 "/udev" Samples.name_as_kernel Samples.db_ok
        Samples.nobody Samples.nobody
        (Samples.with_type "p" Samples.sda) Samples.no_attributes
        Samples.empty_world).1.1 ≠ 0).
Proof. intros H. apply H. vm_compute. reflexivity. Qed.

(** The interface eth0, named as the kernel names it. *)
Lemma net_same_name_no_rename_witness :
  UdevAdd.udev_add_device 256 256 "/udev" Samples.name_as_kernel Samples.db_ok
    Samples.nobody Samples.nobody
    Samples.eth0 Samples.no_attributes Samples.empty_world
  = ((0, (Samples.name_as_kernel Samples.eth0 Samples.no_attributes).2),
     Sys.log_all [Sys.EvNameDevice; Sys.EvSelinuxInit; Sys.EvSelinuxRestore]
       Samples.empty_world).
Proof.
  refine (proj1 (net_same_name_no_rename 256 256 "/udev"
            Samples.name_as_kernel Samples.db_ok Samples.nobody Samples.nobody
            Samples.eth0 Samples.no_attributes Samples.empty_world _ _ _));
    reflexivity.
Defined.

(** Against C4 as stated: eth0 keeps its name, no rename is made, and
    [devname], empty before the call, is still empty after it: it does not
    equal [kernel_name]. *)
Lemma net_same_name_devname_not_written :
  ¬ (let udev' := (UdevAdd.udev_add_device 256 256 "/udev" Samples.name_as_kernel
                     Samples.db_ok Samples.nobody Samples.nobody
                     Samples.eth0 Samples.no_attributes Samples.empty_world).1.2 in
     UdevAdd.devname udev' = UdevAdd.kernel_name udev').
Proof. vm_compute. discriminate. Qed.

(** ** make_node: what its result says *)

(** C2 fails on the code: make_node reports a failed mknod, but not a failed
    chmod or chown.  On a system that refuses chmod, the node /udev/sda is
    made, the chmod is attempted and refused, and make_node returns 0; the
    same when the node is already there with the right device number (the
    preserve branch). *)
Theorem make_node_hides_chmod_failure :
  let w := Samples.chmod_refused_world in
  let '(r, w1) := UdevAdd.make_node "/udev/sda" 8 0 25008 0 0 w in
  let '(r', w2) := UdevAdd.make_node "/udev/sda" 8 0 25008 0 0 w1 in
  Sys.refuses w (Sys.EvChmod "/udev/sda" 25008) = true
  ∧ r = 0
  ∧ Sys.trace w1 = [Sys.EvSetfscreatecon "/udev/sda" 25008;
                    Sys.EvMknod "/udev/sda" 25008 (Sys.makedev 8 0);
                    Sys.EvChmod "/udev/sda" 25008]
  ∧ r' = 0
  ∧ Sys.trace w2 = Sys.trace w1 ++ [Sys.EvSetfilecon "/udev/sda" 25008;
                                    Sys.EvChmod "/udev/sda" 25008].
Proof. vm_compute. by repeat split. Qed.

(** ** Test mode *)

(** C8 fails on the code: with [test_run] set, a name with a '/' in it
    still has its parent directories created, because create_node calls
    create_path for the node before it looks at [test_run].  Here the block
    device sda is named disk/sda in test mode: the call returns 0, writes
    [devname], and has made the directory /udev/disk. *)
Theorem test_run_still_creates_directories :
  let '(r, udev, w) :=
    UdevAdd.udev_add_device 256 256 "/udev" (Samples.name_as "disk/sda" "" 0)
      Samples.db_ok Samples.nobody Samples.nobody
      (Samples.with_test_run Samples.sda) (Samples.class_dev_of "8:0")
      Samples.empty_world in
  UdevAdd.test_run udev = true
  ∧ r = 0
  ∧ UdevAdd.devname udev = "/udev/disk/sda"
  ∧ filter (λ e, Sys.mutating e = true) (Sys.trace w) = [Sys.EvMkdir "/udev/disk" 493]
  ∧ Sys.files Samples.empty_world !! "/udev/disk" = None
  ∧ is_Some (Sys.files w !! "/udev/disk").
Proof. vm_compute. repeat split; eauto. Qed.

(** ** make_node twice *)

Section MakeNodeTwice.
Import CStr Sys UdevAdd Notions.

Implicit Types (w : world) (file : string) (node : inode).

Local Ltac run := unfold mbind, M_bind, mret, M_ret, emit; simpl.
Local Ltac step :=
  unfold mbind, M_bind, mret, M_ret, emit; cbn -[make_node_create make_node_perms].

Lemma perm_bits_have_no_type m x : Z.land (Z.land (Z.land m ALLPERMS) x) S_IFMT = 0.
Proof.
  rewrite <- (Z.land_assoc _ x), (Z.land_comm x), Z.land_assoc.
  rewrite <- (Z.land_assoc m). change (Z.land ALLPERMS S_IFMT) with 0.
  by rewrite Z.land_0_r.
Qed.

Lemma chmod_mode_type a m :
  Z.land (Z.lor (Z.land a S_IFMT) (Z.land m ALLPERMS)) S_IFMT = Z.land a S_IFMT.
Proof.
  rewrite Z.land_lor_distr_l, <- !Z.land_assoc.
  change (Z.land ALLPERMS S_IFMT) with 0. change (Z.land S_IFMT S_IFMT) with S_IFMT.
  by rewrite Z.land_0_r, Z.lor_0_r.
Qed.

Lemma chown_id_idem new old : chown_id new (chown_id new old) = chown_id new old.
Proof. unfold chown_id. by case_bool_decide. Qed.


Lemma make_node_perms_settles retval file mode uid gid w n r w' :
  files w !! file = Some n →
  make_node_perms retval file mode uid gid w = (r, w') →
  r = retval
  ∧ refuses w' = refuses w
  ∧ ∃ node, settled file mode uid gid w' node
      ∧ st_ino node = st_ino n ∧ st_rdev node = st_rdev n
      ∧ Z.land (st_mode node) S_IFMT = Z.land (st_mode n) S_IFMT.
Proof.
  intros Hn. unfold make_node_perms, sys_chmod, sys_chown. run. rewrite Hn.
  destruct (refuses w (EvChmod file mode)) eqn:Hchmod; simpl.
  { intros [= <- <-]. repeat split; [done..|]. exists n. unfold settled; simpl.
    rewrite Hchmod. naive_solver. }
  destruct (bool_decide (uid ≠ 0) || bool_decide (gid ≠ 0)) eqn:Hid; simpl.
  - rewrite lookup_insert_eq.
    destruct (refuses w (EvChown file uid gid)) eqn:Hchown; simpl.
    + intros [= <- <-]. repeat split; [done..|]. eexists. unfold settled; simpl.
      rewrite lookup_insert_eq, Hchown. split; [split; [done|]|].
      * intros _. simpl. rewrite chmod_mode_type. split; [done|]. by intros.
      * simpl. by rewrite chmod_mode_type.
    + intros [= <- <-]. repeat split; [done..|]. eexists. unfold settled; simpl.
      rewrite lookup_insert_eq. split; [split; [done|]|].
      * intros _. simpl. rewrite chmod_mode_type. split; [done|].
        intros _ _. by rewrite !chown_id_idem.
      * simpl. by rewrite chmod_mode_type.
  - intros [= <- <-]. repeat split; [done..|]. eexists. unfold settled; simpl.
    rewrite lookup_insert_eq, Hid. split; [split; [done|]|].
    + intros _. simpl. rewrite chmod_mode_type. split; [done|]. by intros.
    + simpl. by rewrite chmod_mode_type.
Qed.


Lemma make_node_perms_settled retval file mode uid gid w node :
  settled file mode uid gid w node →
  ∃ evs, make_node_perms retval file mode uid gid w = (retval, log_all evs w)
         ∧ Forall (λ e, perms_event e = true) evs.
Proof.
  intros [Hnode Hperm]. unfold make_node_perms, sys_chmod, sys_chown. run.
  rewrite Hnode.
  destruct (refuses w (EvChmod file mode)) eqn:Hchmod; simpl.
  { eexists [_]. split; [done|]. by repeat constructor. }
  destruct (Hperm eq_refl) as [Hmode Hown].
  rewrite <- Hmode.
  assert (Inode (st_ino node) (st_mode node) (st_rdev node) (st_uid node)
                (st_gid node) (st_target node) = node) as -> by by destruct node.
  rewrite (insert_id _ _ _ Hnode).
  destruct (bool_decide (uid ≠ 0) || bool_decide (gid ≠ 0)) eqn:Hid; simpl.
  - rewrite Hnode.
    destruct (refuses w (EvChown file uid gid)) eqn:Hchown; simpl.
    + eexists [_; _]. split.
      { unfold set_files, log, log_all; simpl. by rewrite <- app_assoc. }
      by repeat constructor.
    + destruct (Hown eq_refl eq_refl) as [-> ->].
      assert (Inode (st_ino node) (st_mode node) (st_rdev node) (st_uid node)
                    (st_gid node) (st_target node) = node) as -> by by destruct node.
      rewrite (insert_id _ _ _ Hnode).
      eexists [_; _]. split.
      { unfold set_files, log, log_all; simpl. by rewrite <- app_assoc. }
      by repeat constructor.
  - eexists [_]. split; [done|]. by repeat constructor.
Qed.

Lemma mknod_type_device mode :
  is_device_type (Z.land mode S_IFMT) = true →
  mknod_type mode = Some (Z.land mode S_IFMT).
Proof.
  unfold is_device_type, mknod_type. intros Hdev.
  apply orb_true_iff in Hdev as [->%bool_decide_eq_true| ->%bool_decide_eq_true]; done.
Qed.

Lemma make_node_create_settles file major minor mode uid gid w w1 :
  is_device_type (Z.land mode S_IFMT) = true →
  make_node_create file major minor mode uid gid w = (0, w1) →
  refuses w1 = refuses w
  ∧ ∃ node, settled file mode uid gid w1 node
      ∧ is_device_type (Z.land (st_mode node) S_IFMT) = true
      ∧ st_rdev node = makedev major minor.
Proof.
  intros Hdev. unfold make_node_create, sys_mknod. run.
  rewrite (mknod_type_device _ Hdev).
  destruct (files w !! file) eqn:Hfile; [done|].
  destruct (refuses w (EvMknod file mode (makedev major minor))); [done|]. simpl.
  match goal with |- context [make_node_perms 0 _ _ _ _ ?w'] =>
    destruct (make_node_perms 0 file mode uid gid w') as [r w2] eqn:Hperms end.
  intros [= -> ->].
  eapply make_node_perms_settles in Hperms as (_ & Hrefuses & node & Hsettled & _ & Hrdev & Htype);
    [|simpl; apply lookup_insert_eq]. simpl in *.
  split; [done|]. exists node. split; [done|].
  rewrite Htype, Hrdev, Z.land_lor_distr_l, perm_bits_have_no_type, Z.lor_0_r.
  rewrite <- Z.land_assoc. change (Z.land S_IFMT S_IFMT) with S_IFMT.
  by rewrite Hdev.
Qed.

Lemma make_node_settles file major minor mode uid gid w w1 :
  is_device_type (Z.land mode S_IFMT) = true →
  make_node file major minor mode uid gid w = (0, w1) →
  ∃ node, settled file mode uid gid w1 node
    ∧ is_device_type (Z.land (st_mode node) S_IFMT) = true
    ∧ st_rdev node = makedev major minor.
Proof.
  intros Hdev. unfold make_node, sys_stat. run.
  destruct (files w !! file) as [stats|] eqn:Hfile.
  - destruct (is_device_type (Z.land (st_mode stats) S_IFMT)
              && bool_decide (st_rdev stats = makedev major minor)) eqn:Hkeep; run.
    + apply andb_true_iff in Hkeep as [Htype Hrdev%bool_decide_eq_true].
      intros Hperms.
      eapply make_node_perms_settles in Hperms as (_ & _ & node & ? & _ & Hr & Ht);
        [|exact Hfile].
      exists node. by rewrite Ht, Hr.
    + destruct (sys_unlink file w) as [r w'] eqn:Hunlink.
      intros Hcreate. by apply make_node_create_settles in Hcreate as [_ ?].
  - intros Hcreate. by apply make_node_create_settles in Hcreate as [_ ?].
Qed.

(** The `perms:` step hands back the result it was entered with: a failed
    chmod or chown does not change it. *)
Lemma make_node_perms_result retval file mode uid gid w :
  (make_node_perms retval file mode uid gid w).1 = retval.
Proof.
  unfold make_node_perms. run.
  destruct (sys_chmod file mode w) as [r w1].
  case_bool_decide; [done|].
  destruct (bool_decide (uid ≠ 0) || bool_decide (gid ≠ 0)); [|done].
  destruct (sys_chown file uid gid w1) as [r2 w2]. by case_bool_decide.
Qed.

Lemma make_node_create_fails_again file major minor mode uid gid w r1 w1 :
  is_device_type (Z.land mode S_IFMT) = true →
  make_node_create file major minor mode uid gid w = (r1, w1) →
  r1 ≠ 0 →
  r1 = -1 ∧ files w1 = files w ∧ refuses w1 = refuses w
  ∧ ∀ w', files w' = files w → refuses w' = refuses w →
      make_node_create file major minor mode uid gid w'
      = (-1, log_all [EvSetfscreatecon file mode; EvMknod file mode (makedev major minor)] w').
Proof.
  intros Hdev. unfold make_node_create, sys_mknod. run.
  rewrite (mknod_type_device _ Hdev).
  assert (∀ w', log (EvMknod file mode (makedev major minor)) (log (EvSetfscreatecon file mode) w')
    = log_all [EvSetfscreatecon file mode; EvMknod file mode (makedev major minor)] w') as Hlog.
  { intros w'. unfold log, log_all; simpl. by rewrite <- app_assoc. }
  destruct (files w !! file) eqn:Hfile.
  - intros [= <- <-] _. split_and!; [done..|].
    intros w' Hfiles Hrefuses. by rewrite Hfiles, Hfile, Hlog.
  - destruct (refuses w (EvMknod file mode (makedev major minor))) eqn:Hrefused.
    + intros [= <- <-] _. split_and!; [done..|].
      intros w' Hfiles Hrefuses. by rewrite Hfiles, Hfile, Hrefuses, Hrefused, Hlog.
    + simpl. intros Hperms Hr1.
      match type of Hperms with make_node_perms 0 _ _ _ _ ?w' = _ =>
        pose proof (make_node_perms_result 0 file mode uid gid w') as Hres end.
      rewrite Hperms in Hres. by simpl in Hres.
Qed.

(** After a failed make_node, the same call fails again and changes nothing
    but the trace. *)
Lemma make_node_fails_again file major minor mode uid gid w r1 w1 :
  is_device_type (Z.land mode S_IFMT) = true →
  make_node file major minor mode uid gid w = (r1, w1) →
  r1 ≠ 0 →
  ∃ evs, make_node file major minor mode uid gid w1 = (r1, log_all evs w1).
Proof.
  intros Hdev. unfold make_node at 1, sys_stat. run.
  destruct (files w !! file) as [stats|] eqn:Hfile.
  - destruct (is_device_type (Z.land (st_mode stats) S_IFMT)
              && bool_decide (st_rdev stats = makedev major minor)) eqn:Hkeep; run.
    { intros Hperms Hr1.
      match type of Hperms with make_node_perms 0 _ _ _ _ ?w' = _ =>
        pose proof (make_node_perms_result 0 file mode uid gid w') as Hres end.
      rewrite Hperms in Hres. by simpl in Hres. }
    unfold sys_unlink. simpl. rewrite Hfile.
    destruct (refuses w (EvUnlink file) || _) eqn:Hrefused.
    + intros Hcreate Hr1.
      destruct (make_node_create_fails_again _ _ _ _ _ _ _ _ _ Hdev Hcreate Hr1)
        as (-> & Hfiles & Hrefuses & Hagain). simpl in *.
      eexists. unfold make_node, sys_stat, sys_unlink. step.
      rewrite Hfiles, Hfile, Hkeep. step.
      rewrite Hfiles, Hfile, Hrefuses, Hrefused.
      rewrite Hagain by done. f_equal.
      unfold log, log_all; simpl. by rewrite <- app_assoc.
    + intros Hcreate Hr1.
      destruct (make_node_create_fails_again _ _ _ _ _ _ _ _ _ Hdev Hcreate Hr1)
        as (-> & Hfiles & Hrefuses & Hagain). simpl in *.
      eexists. unfold make_node, sys_stat. step.
      rewrite Hfiles, lookup_delete_eq. by rewrite Hagain.
  - intros Hcreate Hr1.
    destruct (make_node_create_fails_again _ _ _ _ _ _ _ _ _ Hdev Hcreate Hr1)
      as (-> & Hfiles & Hrefuses & Hagain). simpl in *.
    eexists. unfold make_node, sys_stat. step.
    rewrite Hfiles, Hfile. by rewrite Hagain.
Qed.

(** C6: for a block or char node, a second make_node with the same
    arguments returns what the first returned and leaves the world the first
    left, trace apart: same entries, same inode at [file], same counter of
    inode numbers.  When the first call returned 0, the second finds a device
    node with the requested device number at [file] and takes the preserve
    branch: it raises only the label, chmod and chown events of that branch
    (no unlink, no mknod). *)
Theorem make_node_twice_preserves file major minor mode uid gid w :
  is_device_type (Z.land mode S_IFMT) = true →
  let first := make_node file major minor mode uid gid w in
  ∃ evs,
    make_node file major minor mode uid gid first.2 = (first.1, log_all evs first.2)
    ∧ (first.1 = 0 →
       Forall (λ e, perms_event e = true) evs
       ∧ ∃ node, files first.2 !! file = Some node
           ∧ is_device_type (Z.land (st_mode node) S_IFMT) = true
           ∧ st_rdev node = makedev major minor).
Proof.
  intros Hdev first. subst first.
  destruct (make_node file major minor mode uid gid w) as [r1 w1] eqn:Hfirst. simpl.
  destruct (decide (r1 = 0)) as [->|Hfailed].
  - destruct (make_node_settles _ _ _ _ _ _ _ _ Hdev Hfirst)
      as (node & Hsettled & Htype & Hrdev).
    pose proof Hsettled as [Hnode _].
    destruct (make_node_perms_settled 0 file mode uid gid
                (log (EvSetfilecon file (st_mode node)) w1) node)
      as (evs & Hperms & Hevs); [exact Hsettled|].
    exists (EvSetfilecon file (st_mode node) :: evs). split.
    + unfold make_node, sys_stat. run. rewrite Hnode, Htype, Hrdev.
      rewrite bool_decide_true by done. simpl. rewrite Hperms.
      f_equal. unfold log, log_all; simpl. by rewrite <- app_assoc.
    + intros _. split; [by constructor|]. by exists node.
  - destruct (make_node_fails_again _ _ _ _ _ _ _ _ _ Hdev Hfirst Hfailed) as [evs Hagain].
    exists evs. split; [done|]. by intros ?.
Qed.

End MakeNodeTwice.

(** The node /udev/sda made on the sample tree, then asked for again. *)
Lemma make_node_twice_preserves_witness :
  ∃ evs,
    UdevAdd.make_node "/udev/sda" 8 0 25008 0 0
      (UdevAdd.make_node "/udev/sda" 8 0 25008 0 0 Samples.empty_world).2
    = (0, Sys.log_all evs
            (UdevAdd.make_node "/udev/sda" 8 0 25008 0 0 Samples.empty_world).2)
    ∧ Forall (λ e, Notions.perms_event e = true) evs.
Proof.
  destruct (make_node_twice_preserves "/udev/sda" 8 0 25008 0 0 Samples.empty_world
              eq_refl) as (evs & Hsecond & Hpreserved).
  exists evs. split; [exact Hsecond|]. apply Hpreserved. reflexivity.
Defined.

(** ** Entries a call leaves alone *)

Section Frames.
Import CStr Sys UdevAdd Notions MoreNotions.

Implicit Types (w : world) (p file path : string).

Local Ltac run := unfold mbind, M_bind, mret, M_ret, emit; simpl.


Lemma stable_refl p w : stable p w w.
Proof. by split. Qed.

Lemma stable_trans p w1 w2 w3 : stable p w1 w2 → stable p w2 w3 → stable p w1 w3.
Proof. intros [R1 F1] [R2 F2]. split; [congruence|auto]. Qed.

Lemma stable_log p e w : stable p w (log e w).
Proof. by split. Qed.

Lemma sys_mkdir_stable p path mode w : stable p w (sys_mkdir path mode w).2.
Proof.
  unfold sys_mkdir; simpl. destruct (files w !! path) eqn:Hpath; [by split|].
  destruct (refuses w _); [by split|]. split; [done|]. simpl. intros n Hn.
  rewrite lookup_insert_ne; [done|congruence].
Qed.

Lemma sys_mknod_stable p path mode dev w : stable p w (sys_mknod path mode dev w).2.
Proof.
  unfold sys_mknod; simpl. destruct (files w !! path) eqn:Hpath; [by split|].
  destruct (mknod_type mode); [|by split].
  destruct (refuses w _); [by split|]. split; [done|]. simpl. intros n Hn.
  rewrite lookup_insert_ne; [done|congruence].
Qed.

Lemma sys_symlink_stable p target path w : stable p w (sys_symlink target path w).2.
Proof.
  unfold sys_symlink; simpl. destruct (files w !! path) eqn:Hpath; [by split|].
  destruct (refuses w _); [by split|]. split; [done|]. simpl. intros n Hn.
  rewrite lookup_insert_ne; [done|congruence].
Qed.

Lemma sys_unlink_stable p path w : p ≠ path → stable p w (sys_unlink path w).2.
Proof.
  intros Hne. unfold sys_unlink; simpl. destruct (files w !! path); [|by split].
  destruct (refuses w _ || _); [by split|]. split; [done|]. simpl. intros n Hn.
  by rewrite lookup_delete_ne.
Qed.

Lemma sys_chmod_stable p path mode w : p ≠ path → stable p w (sys_chmod path mode w).2.
Proof.
  intros Hne. unfold sys_chmod; simpl. destruct (files w !! path); [|by split].
  destruct (refuses w _); [by split|]. split; [done|]. simpl. intros n Hn.
  by rewrite lookup_insert_ne.
Qed.

Lemma sys_chown_stable p path uid gid w :
  p ≠ path → stable p w (sys_chown path uid gid w).2.
Proof.
  intros Hne. unfold sys_chown; simpl. destruct (files w !! path); [|by split].
  destruct (refuses w _); [by split|]. split; [done|]. simpl. intros n Hn.
  by rewrite lookup_insert_ne.
Qed.

Lemma create_dirs_stable p dirs w : stable p w (create_dirs dirs w).2.
Proof.
  revert w. induction dirs as [|d dirs IH]; intros w; simpl; [apply stable_refl|].
  unfold sys_stat. run. destruct (is_dir (files w !! d)); [apply stable_refl|].
  specialize (IH w). destruct (create_dirs dirs w) as [r w1]. simpl in *.
  case_bool_decide; [done|].
  eapply stable_trans; [exact IH|apply sys_mkdir_stable].
Qed.

Lemma create_path_stable p path w : stable p w (create_path path w).2.
Proof. apply create_dirs_stable. Qed.

Lemma make_node_perms_stable p retval file mode uid gid w :
  p ≠ file → stable p w (make_node_perms retval file mode uid gid w).2.
Proof.
  intros Hne. unfold make_node_perms. run.
  pose proof (sys_chmod_stable p file mode w Hne) as H1.
  destruct (sys_chmod file mode w) as [r w1]. simpl in *.
  case_bool_decide; [done|].
  destruct (bool_decide (uid ≠ 0) || bool_decide (gid ≠ 0)); [|done].
  pose proof (sys_chown_stable p file uid gid w1 Hne) as H2.
  destruct (sys_chown file uid gid w1) as [r2 w2]. simpl in *.
  case_bool_decide; by eapply stable_trans.
Qed.

Lemma make_node_create_stable p file major minor mode uid gid w :
  p ≠ file → stable p w (make_node_create file major minor mode uid gid w).2.
Proof.
  intros Hne. unfold make_node_create. run.
  pose proof (sys_mknod_stable p file mode (makedev major minor)
                (log (EvSetfscreatecon file mode) w)) as H1.
  destruct (sys_mknod _ _ _ _) as [r w1]. simpl in *.
  destruct H1 as [R1 F1].
  case_bool_decide; [by split|].
  eapply stable_trans; [by split|by apply make_node_perms_stable].
Qed.

Lemma make_node_stable p file major minor mode uid gid w :
  p ≠ file → stable p w (make_node file major minor mode uid gid w).2.
Proof.
  intros Hne. unfold make_node, sys_stat. run.
  destruct (files w !! file) as [stats|]; [|by apply make_node_create_stable].
  destruct (_ && _).
  - run. eapply stable_trans; [apply (stable_log _ (EvSetfilecon file (st_mode stats)))|].
    by apply make_node_perms_stable.
  - run. pose proof (sys_unlink_stable p file w Hne) as H1.
    destruct (sys_unlink file w) as [r w1]. simpl in *.
    eapply stable_trans; [exact H1|by apply make_node_create_stable].
Qed.


Lemma only_at_refl file w : only_at file w w.
Proof. by repeat split. Qed.

Lemma only_at_trans file w1 w2 w3 :
  only_at file w1 w2 → only_at file w2 w3 → only_at file w1 w3.
Proof.
  intros [(? & ? & ? & ?) F1] [(? & ? & ? & ?) F2].
  split; [repeat split; congruence|]. intros p Hp. by rewrite F2, F1.
Qed.

Lemma only_at_log file e w : only_at file w (log e w).
Proof. by repeat split. Qed.

Lemma sys_unlink_only_at file w : only_at file w (sys_unlink file w).2.
Proof.
  unfold sys_unlink; simpl. destruct (files w !! file); [|by repeat split].
  destruct (refuses w _ || _); [by repeat split|]. split; [by repeat split|].
  intros p Hp. simpl. by rewrite lookup_delete_ne.
Qed.

Lemma sys_mknod_only_at file mode dev w : only_at file w (sys_mknod file mode dev w).2.
Proof.
  unfold sys_mknod; simpl. destruct (files w !! file); [by repeat split|].
  destruct (mknod_type mode); [|by repeat split].
  destruct (refuses w _); [by repeat split|]. split; [by repeat split|].
  intros p Hp. simpl. by rewrite lookup_insert_ne.
Qed.

Lemma sys_chmod_only_at file mode w : only_at file w (sys_chmod file mode w).2.
Proof.
  unfold sys_chmod; simpl. destruct (files w !! file); [|by repeat split].
  destruct (refuses w _); [by repeat split|]. split; [by repeat split|].
  intros p Hp. simpl. by rewrite lookup_insert_ne.
Qed.

Lemma sys_chown_only_at file uid gid w : only_at file w (sys_chown file uid gid w).2.
Proof.
  unfold sys_chown; simpl. destruct (files w !! file); [|by repeat split].
  destruct (refuses w _); [by repeat split|]. split; [by repeat split|].
  intros p Hp. simpl. by rewrite lookup_insert_ne.
Qed.

Lemma make_node_perms_only_at retval file mode uid gid w :
  only_at file w (make_node_perms retval file mode uid gid w).2.
Proof.
  unfold make_node_perms. run.
  pose proof (sys_chmod_only_at file mode w) as H1.
  destruct (sys_chmod file mode w) as [r w1]. simpl in *.
  case_bool_decide; [done|].
  destruct (bool_decide (uid ≠ 0) || bool_decide (gid ≠ 0)); [|done].
  pose proof (sys_chown_only_at file uid gid w1) as H2.
  destruct (sys_chown file uid gid w1) as [r2 w2]. simpl in *.
  case_bool_decide; by eapply only_at_trans.
Qed.

Lemma make_node_create_only_at file major minor mode uid gid w :
  only_at file w (make_node_create file major minor mode uid gid w).2.
Proof.
  unfold make_node_create. run.
  pose proof (sys_mknod_only_at file mode (makedev major minor)
                (log (EvSetfscreatecon file mode) w)) as H1.
  destruct (sys_mknod _ _ _ _) as [r w1]. simpl in *.
  assert (only_at file w w1) as H1'.
  { eapply only_at_trans; [apply (only_at_log _ (EvSetfscreatecon file mode))|done]. }
  case_bool_decide; [done|].
  eapply only_at_trans; [exact H1'|apply make_node_perms_only_at].
Qed.

Lemma make_node_only_at file major minor mode uid gid w :
  only_at file w (make_node file major minor mode uid gid w).2.
Proof.
  unfold make_node, sys_stat. run.
  destruct (files w !! file) as [stats|]; [|apply make_node_create_only_at].
  destruct (_ && _); run.
  - eapply only_at_trans; [apply (only_at_log _ (EvSetfilecon file (st_mode stats)))|].
    apply make_node_perms_only_at.
  - pose proof (sys_unlink_only_at file w) as H1.
    destruct (sys_unlink file w) as [r w1]. simpl in *.
    eapply only_at_trans; [exact H1|apply make_node_create_only_at].
Qed.

Lemma make_node_frame p file major minor mode uid gid w :
  p ≠ file → files (make_node file major minor mode uid gid w).2 !! p = files w !! p.
Proof. intros Hp. by apply make_node_only_at. Qed.

(** The directories create_path asks for are proper prefixes of the path. *)
Lemma rev_app_length s t :
  String.length (String.rev_app s t) = (String.length s + String.length t)%nat.
Proof.
  revert t. induction s as [|a s IH]; intros t; simpl; [done|]. rewrite IH. simpl. lia.
Qed.

Lemma parent_dirs_from_shorter pre path acc d :
  d ∈ parent_dirs_from pre path acc →
  d ∈ acc ∨ (String.length d < String.length pre + String.length path)%nat.
Proof.
  revert pre acc. induction path as [|c r IH]; intros pre acc; simpl; [by left|].
  intros [Hacc|Hlen]%IH; [|right; simpl in Hlen; lia].
  destruct pre as [|p pre']; [by left|].
  destruct (is_slash c && negb (is_slash p)); [|by left].
  apply elem_of_cons in Hacc as [->|?]; [|by left].
  right. unfold String.rev. rewrite rev_app_length. simpl. lia.
Qed.

Lemma parent_dirs_shorter path d :
  d ∈ parent_dirs path → (String.length d < String.length path)%nat.
Proof.
  intros [Hnil|Hlen]%parent_dirs_from_shorter; [|done]. by apply elem_of_nil in Hnil.
Qed.

Lemma create_dirs_frame p dirs w :
  p ∉ dirs → files (create_dirs dirs w).2 !! p = files w !! p.
Proof.
  revert w. induction dirs as [|d dirs IH]; intros w Hp; simpl; [done|].
  apply not_elem_of_cons in Hp as [Hne Hp].
  unfold sys_stat. run. destruct (is_dir (files w !! d)); [done|].
  specialize (IH w Hp). destruct (create_dirs dirs w) as [r w1]. simpl in *.
  case_bool_decide; [done|].
  unfold sys_mkdir. simpl. destruct (files w1 !! d); [done|].
  destruct (refuses w1 _); [done|]. simpl. by rewrite lookup_insert_ne.
Qed.

Lemma create_path_frame p path w :
  (String.length path ≤ String.length p)%nat →
  files (create_path path w).2 !! p = files w !! p.
Proof.
  intros Hlen. apply create_dirs_frame. intros Hin%parent_dirs_shorter. lia.
Qed.

Lemma create_path_refuses path w : refuses (create_path path w).2 = refuses w.
Proof. by destruct (create_path_stable path path w). Qed.


Lemma dir_at_frame p w w' : files w' !! p = files w !! p → dir_at p w' = dir_at p w.
Proof. unfold dir_at. by intros ->. Qed.

Lemma plain_at_no_dir p w : plain_at p w = true → dir_at p w = false.
Proof. unfold plain_at. intros [_ ?%negb_true_iff]%andb_true_iff. done. Qed.

(** *** Where nodes are made *)











End Frames.


(** ** Texts that fit their buffer *)

Section Buffers.
Import CStr Sys UdevAdd.

Lemma str_app_cons a s t : String a s +:+ t = String a (s +:+ t).
Proof. done. Qed.

Lemma str_app_length s t :
  String.length (s +:+ t) = (String.length s + String.length t)%nat.
Proof. induction s as [|a s IH]; [done|]. rewrite str_app_cons. simpl. by rewrite IH. Qed.

Lemma str_app_nil_r s : s +:+ "" = s.
Proof. induction s as [|a s IH]; [done|]. by rewrite str_app_cons, IH. Qed.

Lemma str_app_assoc s t u : (s +:+ t) +:+ u = s +:+ t +:+ u.
Proof. induction s as [|a s IH]; [done|]. by rewrite !str_app_cons, IH. Qed.

Lemma str_cons_ne a s : String a s ≠ s.
Proof. revert a. induction s as [|b s IH]; intros a; [done|]. intros [= _ H]. by eapply IH. Qed.


Lemma strtake_all n s : (String.length s ≤ n)%nat → strtake n s = s.
Proof.
  revert n. induction s as [|a s IH]; intros [|n] Hn; simpl in *; try done; [lia|].
  rewrite IH; [done|lia].
Qed.


Lemma strfieldcat_fits size to from :
  (String.length (to +:+ from) < size)%nat → strfieldcat size to from = to +:+ from.
Proof.
  rewrite str_app_length. intros. unfold strfieldcat. rewrite strtake_all; [done|lia].
Qed.

Lemma pretty_N_go_nonempty x s : s ≠ "" → pretty_N_go x s ≠ "".
Proof.
  revert s. induction (N.lt_wf_0 x) as [x _ IH]; intros s Hs.
  assert (x = 0 ∨ 0 < x)%N as [->|Hx] by lia; [by rewrite pretty_N_go_0|].
  rewrite pretty_N_go_step by done. apply IH; [by apply N.div_lt|done].
Qed.

Lemma utoa_nonempty i : utoa i ≠ "".
Proof.
  unfold utoa, pretty, pretty_N. case_decide; [done|].
  rewrite pretty_N_go_step by lia. by apply pretty_N_go_nonempty.
Qed.


End Buffers.


(** ** Partition nodes *)

Section Partitions.
Import CStr Sys UdevAdd Notions.

Variable NAME_SIZE : nat.
Variable udev_root : string.
Variables getpwnam getgrnam : string → option Z.

Implicit Types (w : world) (udev : udevice).

Local Ltac run := unfold mbind, M_bind, mret, M_ret, emit; simpl.

Lemma make_node_refuses file major minor mode uid gid w :
  refuses (make_node file major minor mode uid gid w).2 = refuses w.
Proof.
  by destruct (make_node_stable (String "x" file) file major minor mode uid gid w
                 (str_cons_ne _ _)).
Qed.

Lemma make_node_create_quiet file major minor mode uid gid w :
  (∀ e, refuses w e = false) →
  is_device_type (Z.land mode S_IFMT) = true →
  files w !! file = None →
  (make_node_create file major minor mode uid gid w).1 = 0.
Proof.
  intros Hquiet Hdev Hfile. unfold make_node_create, sys_mknod. run.
  rewrite Hfile, (mknod_type_device _ Hdev), Hquiet. simpl.
  match goal with |- context [make_node_perms 0 _ _ _ _ ?w'] =>
    pose proof (make_node_perms_result 0 file mode uid gid w') as Hperms;
    destruct (make_node_perms 0 file mode uid gid w') end.
  done.
Qed.

Lemma make_node_quiet file major minor mode uid gid w :
  (∀ e, refuses w e = false) →
  is_device_type (Z.land mode S_IFMT) = true →
  dir_at file w = false →
  (make_node file major minor mode uid gid w).1 = 0.
Proof.
  intros Hquiet Hdev Hnodir. unfold make_node, sys_stat. run.
  unfold dir_at in Hnodir.
  destruct (files w !! file) as [stats|] eqn:Hfile.
  - destruct (_ && _); run.
    + apply make_node_perms_result.
    + unfold sys_unlink. simpl. rewrite Hfile, Hquiet, Hnodir. simpl.
      apply make_node_create_quiet; [done..|]. simpl. apply lookup_delete_eq.
  - by apply make_node_create_quiet.
Qed.

(** On a system that refuses nothing, make_node leaves a device node with
    the requested number at [file]. *)
Lemma make_node_makes_device file major minor mode uid gid w :
  (∀ e, refuses w e = false) →
  is_device_type (Z.land mode S_IFMT) = true →
  dir_at file w = false →
  ∃ node, files (make_node file major minor mode uid gid w).2 !! file = Some node
    ∧ st_rdev node = makedev major minor
    ∧ is_device_type (Z.land (st_mode node) S_IFMT) = true.
Proof.
  intros Hquiet Hdev Hnodir.
  pose proof (make_node_quiet file major minor mode uid gid w Hquiet Hdev Hnodir) as Hr.
  destruct (make_node file major minor mode uid gid w) as [r w1] eqn:Hrun.
  simpl in *. subst r.
  destruct (make_node_settles _ _ _ _ _ _ _ _ Hdev Hrun) as (node & [Hnode _] & ? & ?).
  by exists node.
Qed.

Lemma for_each_cons {A} (body : A → M unit) x l w :
  for_each (x :: l) body w = for_each l body (body x w).2.
Proof. simpl. run. by destruct (body x w) as [[] w1]. Qed.

Lemma create_partition_world udev filename uid gid i w :
  (create_partition NAME_SIZE udev filename uid gid i w).2
  = (make_node (strintcat NAME_SIZE (strfieldcpy NAME_SIZE filename) i)
       (major udev) (minor udev + i) (mode udev) uid gid w).2.
Proof. unfold create_partition. run. by destruct (make_node _ _ _ _ _ _ w). Qed.



Lemma create_symlink_stable p udev linkname w :
  p ≠ root_path NAME_SIZE udev_root linkname →
  stable p w (create_symlink NAME_SIZE udev_root udev linkname w).2.
Proof.
  intros Hne. unfold create_symlink.
  set (filename := root_path NAME_SIZE udev_root linkname) in *.
  destruct (test_run udev); simpl; run; [apply stable_refl|].
  assert (∀ w1, stable p w w1 →
    stable p w
      (let '(_, w2) := sys_unlink filename (log (EvSetfscreatecon filename S_IFLNK) w1) in
       let '(_, w3) := sys_symlink (link_target NAME_SIZE (name udev) linkname)
                         filename w2 in (tt, w3)).2) as Hlink.
  { intros w1 Hw1.
    pose proof (sys_unlink_stable p filename
                  (log (EvSetfscreatecon filename S_IFLNK) w1) Hne) as H2.
    destruct (sys_unlink filename _) as [r2 w2].
    pose proof (sys_symlink_stable p (link_target NAME_SIZE (name udev) linkname)
                  filename w2) as H3.
    destruct (sys_symlink _ filename w2) as [r3 w3]. simpl in *.
    eapply stable_trans; [exact Hw1|].
    eapply stable_trans; [apply (stable_log _ (EvSetfscreatecon filename S_IFLNK))|].
    by eapply stable_trans. }
  destruct (has_slash linkname); simpl.
  - pose proof (create_path_stable p filename w) as H1.
    destruct (create_path filename w) as [r w1]. simpl in *. by apply Hlink.
  - apply Hlink, stable_refl.
Qed.


Lemma type_bits_b_or_c t :
  is_b_or_c t = true → ∃ bit, type_bits t = Some bit ∧ is_device_type bit = true.
Proof.
  unfold is_b_or_c, type_bits. intros [Hb|Hc]%orb_true_iff.
  - rewrite Hb. by eexists.
  - rewrite Hc. destruct (bool_decide (t = "b"%char)); by eexists.
Qed.

Lemma device_bit_type m bit :
  Z.land m S_IFMT = 0 → is_device_type bit = true →
  is_device_type (Z.land (Z.lor m bit) S_IFMT) = true.
Proof.
  intros Hm Hbit. rewrite Z.land_lor_distr_l, Hm, Z.lor_0_l.
  unfold is_device_type in Hbit.
  by apply orb_true_iff in Hbit as [->%bool_decide_eq_true| ->%bool_decide_eq_true].
Qed.


End Partitions.




(** ** The relative target of a symlink *)

Section LinkTarget.
Import CStr Sys UdevAdd Path Notions.

Variable NAME_SIZE : nat.
Variable udev_root : string.


Lemma updirs_length k : String.length (updirs k) = (3 * k)%nat.
Proof. induction k as [|k IH]; [done|]. simpl updirs. rewrite str_app_length, IH. simpl. lia. Qed.

Lemma count_slashes_app a b :
  count_slashes (a +:+ b) = (count_slashes a + count_slashes b)%nat.
Proof.
  induction a as [|c a IH]; [done|]. rewrite str_app_cons. simpl. rewrite IH. lia.
Qed.

Lemma strdrop_app c r : strdrop (String.length c) (c +:+ r) = r.
Proof. induction c as [|a c IH]; [by destruct r|]. by rewrite str_app_cons. Qed.

(** What the first loop computes: the common prefix [c] of the two texts,
    and [tail] just after the last '/' of [c], if it has one. *)
Lemma common_prefix_split n t i tl i' tl' :
  common_prefix n t i tl = (i', tl') →
  ∃ c n_rest t_rest,
    n = c +:+ n_rest ∧ t = c +:+ t_rest ∧ i' = (i + String.length c)%nat
    ∧ ((count_slashes c = 0%nat ∧ tl' = tl)
       ∨ ∃ c1 c2, c = c1 +:+ String slash c2 ∧ count_slashes c2 = 0%nat
                  ∧ tl' = (i + String.length c1 + 1)%nat).
Proof.
  revert t i tl. induction n as [|a n IH]; intros t i tl.
  { simpl. intros [= <- <-]. exists "", "", t. split_and!; [done|done|simpl; lia|by left]. }
  destruct t as [|b t]; simpl.
  { intros [= <- <-]. exists "", (String a n), "". split_and!; [done|done|simpl; lia|by left]. }
  case_bool_decide as Hab; [subst b|].
  - intros (c & n_rest & t_rest & -> & -> & -> & Hc)%IH.
    exists (String a c), n_rest, t_rest. rewrite !str_app_cons. simpl.
    split_and!; [done|done|lia|].
    destruct Hc as [[Hnone ->]|(c1 & c2 & -> & Hc2 & ->)].
    + unfold is_slash. case_bool_decide as Ha.
      * right. exists "", c. subst a. split_and!; [done|done|simpl; lia].
      * by left.
    + right. exists (String a c1), c2. rewrite str_app_cons. simpl.
      split_and!; [done|done|lia].
  - intros [= <- <-]. exists "", (String a n), (String b t).
    split_and!; [done|done|simpl; lia|by left].
Qed.

Lemma dotdots_fits rest acc :
  (String.length acc + 3 * count_slashes rest < NAME_SIZE)%nat →
  dotdots NAME_SIZE acc rest = acc +:+ updirs (count_slashes rest).
Proof.
  revert acc. induction rest as [|c rest IH]; intros acc Hfit; simpl.
  { by rewrite str_app_nil_r. }
  simpl in Hfit. destruct (is_slash c); simpl in *.
  - rewrite strfieldcat_fits by (rewrite str_app_length; simpl; lia).
    rewrite IH by (rewrite str_app_length; simpl; lia).
    by rewrite str_app_assoc.
  - by apply IH.
Qed.

(** The target in closed form: the two texts share the directory prefix
    [dir] (empty, or ending in '/'), and the target climbs out of what is
    left of the link name and descends what is left of the node name. *)
Lemma link_target_split n t :
  (3 * count_slashes t + String.length n < NAME_SIZE)%nat →
  ∃ dir n' t',
    n = dir +:+ n' ∧ t = dir +:+ t'
    ∧ (dir = "" ∨ ∃ d, dir = d +:+ "/")
    ∧ link_target NAME_SIZE n t = updirs (count_slashes t') +:+ n'.
Proof.
  intros Hfit. unfold link_target.
  destruct (common_prefix n t 0 0) as [i tl] eqn:Hscan.
  apply common_prefix_split in Hscan as (c & n_rest & t_rest & -> & -> & -> & Hc).
  simpl. rewrite strdrop_app.
  rewrite count_slashes_app, str_app_length in Hfit.
  rewrite dotdots_fits by (simpl; lia). simpl.
  destruct Hc as [[Hnone ->]|(c1 & c2 & -> & Hc2 & ->)].
  - exists "", (c +:+ n_rest), (c +:+ t_rest). repeat split; [by left|].
    rewrite count_slashes_app, Hnone. simpl.
    apply strfieldcat_fits. rewrite !str_app_length, updirs_length. lia.
  - assert (∀ r, (c1 +:+ String slash c2) +:+ r = (c1 +:+ "/") +:+ c2 +:+ r) as Hre.
    { intros r. by rewrite !str_app_assoc. }
    exists (c1 +:+ "/"), (c2 +:+ n_rest), (c2 +:+ t_rest). rewrite !Hre.
    split_and!; [done|done|right; by exists c1|].
    rewrite count_slashes_app, Hc2. simpl.
    replace (String.length c1 + 1)%nat with (String.length (c1 +:+ "/"))
      by (rewrite str_app_length; simpl; lia).
    rewrite strdrop_app.
    rewrite !str_app_length in Hfit. simpl in Hfit.
    apply strfieldcat_fits. rewrite !str_app_length, updirs_length. lia.
Qed.

Lemma segments_nonempty s : segments s ≠ [].
Proof. destruct s as [|c s]; simpl; [done|]. destruct (is_slash c); [done|]. by destruct (segments s). Qed.

Lemma segments_app_slash a b :
  segments (a +:+ String slash b) = segments a ++ segments b.
Proof.
  induction a as [|c a IH]; [done|]. rewrite str_app_cons. simpl.
  destruct (is_slash c); [by rewrite IH|]. rewrite IH.
  pose proof (segments_nonempty a). by destruct (segments a).
Qed.

Lemma segments_length s : length (segments s) = S (count_slashes s).
Proof.
  induction s as [|c s IH]; [done|]. simpl.
  destruct (is_slash c); simpl; [by rewrite IH|].
  pose proof (segments_nonempty s). destruct (segments s); [done|]. by simpl in *.
Qed.

Lemma segments_updirs k s : segments (updirs k +:+ s) = replicate k ".." ++ segments s.
Proof.
  induction k as [|k IH]; [done|]. simpl updirs.
  change ("../" +:+ updirs k) with (".." +:+ String slash (updirs k)).
  rewrite str_app_assoc.
  change (String slash (updirs k) +:+ s) with (String slash (updirs k +:+ s)).
  by rewrite segments_app_slash, IH.
Qed.

Lemma segments_absolute s : is_absolute s = true → ∃ l, segments s = "" :: l.
Proof. destruct s as [|c s]; [done|]. simpl. intros ->. by eexists. Qed.

Lemma walk_app cwd a b : walk cwd (a ++ b) = walk (walk cwd a) b.
Proof. apply foldl_app. Qed.

Lemma step_plain cwd seg : plain seg → step cwd seg = seg :: cwd.
Proof.
  intros (? & ? & ?). unfold step.
  rewrite bool_decide_false by (by intros [|]). by rewrite bool_decide_false.
Qed.

Lemma walk_plain cwd l : Forall plain l → walk cwd l = reverse l ++ cwd.
Proof.
  intros Hl. revert cwd. induction Hl as [|seg l Hseg _ IH]; intros cwd; [done|].
  simpl. rewrite step_plain, IH, reverse_cons by done. by rewrite <- app_assoc.
Qed.

Lemma walk_updirs up cwd : walk (up ++ cwd) (replicate (length up) "..") = cwd.
Proof. induction up as [|seg up IH]; [done|]. simpl. exact IH. Qed.

Lemma Forall_removelast {A} (P : A → Prop) l : Forall P l → Forall P (removelast l).
Proof.
  induction 1 as [|x l Hx Hl IH]; [done|]. simpl. destruct l; [done|]. by constructor.
Qed.

Lemma removelast_length {A} (l : list A) : length (removelast l) = pred (length l).
Proof.
  induction l as [|x l IH]; [done|]. simpl. destruct l; [done|].
  simpl in *. by rewrite IH.
Qed.

(** Both paths under the root share the directories [base]. *)
Lemma shared_base dir n' t' :
  dir = "" ∨ (∃ d, dir = d +:+ "/") →
  ∃ base,
    segments (udev_root +:+ "/" +:+ dir +:+ n') = base ++ segments n'
    ∧ segments (udev_root +:+ "/" +:+ dir +:+ t') = base ++ segments t'
    ∧ (dir ≠ "" → ∃ d, segments (dir +:+ n') = segments d ++ segments n').
Proof.
  change (udev_root +:+ "/" +:+ ?x) with (udev_root +:+ String slash x).
  intros [->|[d ->]].
  - exists (segments udev_root). by rewrite !segments_app_slash.
  - exists (segments udev_root ++ segments d).
    rewrite !str_app_assoc.
    change ("/" +:+ ?x) with (String slash x).
    rewrite !segments_app_slash, !app_assoc. split_and!; [done|done|].
    intros _. by exists d.
Qed.

(** C3, as the code has it: when every segment of the symlink token names
    an entry (none is empty, "." or ".."), the node name has no empty
    segment, and the target fits its buffer, the target that create_node
    computes, resolved from the directory that holds the link root/t, denotes
    root/n. *)
Theorem link_target_denotes_node n t :
  Forall plain (segments t) →
  Forall (λ seg, seg ≠ "") (segments n) →
  (3 * count_slashes t + String.length n < NAME_SIZE)%nat →
  resolve (containing_dir (udev_root +:+ "/" +:+ t)) (link_target NAME_SIZE n t)
  = resolve [] (udev_root +:+ "/" +:+ n).
Proof.
  intros Ht Hn Hfit.
  destruct (link_target_split n t Hfit) as (dir & n' & t' & -> & -> & Hdir & ->).
  destruct (shared_base dir n' t' Hdir) as (base & Hbase_n & Hbase_t & Hdir_n).
  (* the segments left of the token are plain, those left of the name not empty *)
  assert (Forall plain (segments t')) as Ht'.
  { destruct Hdir as [->|[d ->]]; [done|].
    rewrite str_app_assoc in Ht. change ("/" +:+ t') with (String slash t') in Ht.
    rewrite segments_app_slash in Ht. by apply Forall_app in Ht as [_ ?]. }
  assert (Forall (λ seg, seg ≠ "") (segments n')) as Hn'.
  { destruct Hdir as [->|[d ->]]; [done|].
    rewrite str_app_assoc in Hn. change ("/" +:+ n') with (String slash n') in Hn.
    rewrite segments_app_slash in Hn. by apply Forall_app in Hn as [_ ?]. }
  (* the target is a relative path *)
  assert (is_absolute (updirs (count_slashes t') +:+ n') = false) as Hrel.
  { destruct (count_slashes t'); [|done]. simpl.
    destruct (is_absolute n') eqn:Habs; [|done].
    apply segments_absolute in Habs as [l Hl]. rewrite Hl in Hn'.
    by apply Forall_cons in Hn' as [? _]. }
  unfold resolve, containing_dir. rewrite Hrel, Hbase_n, Hbase_t.
  rewrite removelast_app by apply segments_nonempty.
  rewrite segments_updirs, !walk_app.
  rewrite (walk_plain _ (removelast _)) by by apply Forall_removelast.
  replace (count_slashes t') with (length (reverse (removelast (segments t')))).
  { rewrite walk_updirs. by destruct (is_absolute (udev_root +:+ _)). }
  rewrite length_reverse, removelast_length, segments_length. done.
Qed.

End LinkTarget.

(** The example of the specification: the node disk/sda and the link
    disk/by-id/foo under /udev. *)
Lemma link_target_denotes_node_witness :
  Path.resolve (Path.containing_dir "/udev/disk/by-id/foo")
               (UdevAdd.link_target 256 "disk/sda" "disk/by-id/foo")
  = Path.resolve [] "/udev/disk/sda".
Proof.
  apply (link_target_denotes_node 256 "/udev" "disk/sda" "disk/by-id/foo").
  - vm_compute. repeat (constructor; [by split_and!|]). constructor.
  - vm_compute. by repeat constructor.
  - vm_compute. lia.
Defined.

(** Against C3 as stated: for the token a//b and the node c under /udev the
    target is ../../c; the link lies in /udev/a, so the target leads to /c
    and not to /udev/c. *)
Lemma link_target_empty_segment :
  ¬ (Path.resolve (Path.containing_dir "/udev/a//b") (UdevAdd.link_target 256 "c" "a//b")
     = Path.resolve [] "/udev/c").
Proof. vm_compute. discriminate. Qed.

(** * Further properties *)


(** ** Decimal text: printing and scanning agree *)

Section Decimal.
Import CStr.

Lemma digit_val_pretty d : (d < 10)%N → digit_val (pretty_N_char d) = Some (Z.of_N d).
Proof.
  intros Hd.
  assert (d = 0 ∨ d = 1 ∨ d = 2 ∨ d = 3 ∨ d = 4 ∨ d = 5 ∨ d = 6 ∨ d = 7 ∨ d = 8 ∨ d = 9)%N
    as Hcases by lia.
  repeat (destruct Hcases as [->|Hcases]; [done|]). by subst.
Qed.

Lemma digit_is_no_space_or_sign c :
  is_digit c = true → isspace c = false ∧ c ≠ "-"%char ∧ c ≠ "+"%char.
Proof. by destruct c as [[] [] [] [] [] [] [] []]. Qed.

Lemma pretty_N_go_app x s rest : pretty_N_go x s +:+ rest = pretty_N_go x (s +:+ rest).
Proof.
  revert s. induction (N.lt_wf_0 x) as [x _ IH]; intros s.
  assert (x = 0 ∨ 0 < x)%N as [->|Hx] by lia; [by rewrite !pretty_N_go_0|].
  rewrite (pretty_N_go_step x s), (pretty_N_go_step x (s +:+ rest)) by done.
  by rewrite IH by (by apply N.div_lt).
Qed.

Lemma pretty_N_go_starts_with_digit x s :
  starts_with_digit s = true → starts_with_digit (pretty_N_go x s) = true.
Proof.
  revert s. induction (N.lt_wf_0 x) as [x _ IH]; intros s Hs.
  assert (x = 0 ∨ 0 < x)%N as [->|Hx] by lia; [by rewrite pretty_N_go_0|].
  rewrite pretty_N_go_step by done. apply IH; [by apply N.div_lt|].
  simpl. unfold is_digit. by rewrite digit_val_pretty by (by apply N.mod_lt).
Qed.

Lemma scan_digits_pretty_go x s :
  ∃ k, ∀ acc, scan_digits acc (pretty_N_go x s) = scan_digits (acc * k + Z.of_N x) s.
Proof.
  revert s. induction (N.lt_wf_0 x) as [x _ IH]; intros s.
  assert (x = 0 ∨ 0 < x)%N as [->|Hx] by lia.
  { exists 1. intros acc. rewrite pretty_N_go_0. f_equal. lia. }
  destruct (IH (x `div` 10)%N ltac:(by apply N.div_lt)
              (String (pretty_N_char (x `mod` 10)) s)) as [k Hk].
  exists (10 * k). intros acc. rewrite pretty_N_go_step, Hk by done. simpl.
  rewrite digit_val_pretty by (by apply N.mod_lt). f_equal.
  rewrite (N.div_mod x 10) at 3 by done. lia.
Qed.

Lemma utoa_app_starts_with_digit i rest : starts_with_digit (utoa i +:+ rest) = true.
Proof.
  unfold utoa, pretty, pretty_N. destruct (decide (Z.to_N i = 0%N)) as [|Hi]; [done|].
  rewrite pretty_N_go_app, pretty_N_go_step by lia.
  apply pretty_N_go_starts_with_digit. simpl. unfold is_digit.
  by rewrite digit_val_pretty by (by apply N.mod_lt).
Qed.

Lemma scan_digits_utoa i rest :
  0 ≤ i → starts_with_digit rest = false →
  scan_digits 0 (utoa i +:+ rest) = (i, rest).
Proof.
  intros Hi Hrest.
  assert (∀ acc, scan_digits acc rest = (acc, rest)) as Hstop.
  { intros acc. destruct rest as [|c r]; [done|]. simpl in *.
    unfold is_digit in Hrest. by destruct (digit_val c). }
  unfold utoa, pretty, pretty_N. destruct (decide (Z.to_N i = 0%N)) as [Hz|Hnz].
  - change ("0" +:+ rest) with (String "0" rest). simpl. rewrite Hstop. f_equal. lia.
  - rewrite pretty_N_go_app. destruct (scan_digits_pretty_go (Z.to_N i) rest) as [k ->].
    rewrite Hstop. f_equal. lia.
Qed.

Lemma utoa_app_unsigned i rest :
  skip_space (utoa i +:+ rest) = utoa i +:+ rest
  ∧ scan_sign (utoa i +:+ rest) = (false, utoa i +:+ rest).
Proof.
  pose proof (utoa_app_starts_with_digit i rest) as Hdigit.
  destruct (utoa i +:+ rest) as [|c r]; [done|].
  simpl in Hdigit. destruct (digit_is_no_space_or_sign c Hdigit) as (Hsp & _ & _).
  simpl. rewrite Hsp. split; [done|].
  unfold scan_sign. by destruct c as [[] [] [] [] [] [] [] []].
Qed.

(** strtoul reads back what %u printed, and stops where the digits end. *)
Lemma strtoul_utoa bits i rest :
  0 ≤ i < 2 ^ bits → starts_with_digit rest = false →
  strtoul bits (utoa i +:+ rest) = (i, rest).
Proof.
  intros Hi Hrest. unfold strtoul.
  destruct (utoa_app_unsigned i rest) as [-> ->].
  rewrite utoa_app_starts_with_digit, scan_digits_utoa by (done || lia).
  by rewrite (proj2 (Z.leb_gt _ _)) by lia.
Qed.

(** The %u conversion reads back what %u printed. *)
Lemma scan_u_utoa i rest :
  0 ≤ i < 2 ^ 32 → starts_with_digit rest = false →
  scan_u (utoa i +:+ rest) = Some (i, rest).
Proof.
  intros Hi Hrest. unfold scan_u.
  destruct (utoa_app_unsigned i rest) as [-> ->].
  rewrite utoa_app_starts_with_digit, scan_digits_utoa by (done || lia).
  by rewrite Z.mod_small by lia.
Qed.

End Decimal.

(** ** Well-formed input of the resolver and of the id fields *)

Section NumbersRead.
Import CStr Sys UdevAdd Notions MoreNotions.

(** get_major_minor on the text the kernel writes: for the attribute
    "M:m" followed by anything that does not start with a digit (a newline,
    or nothing), with both numbers below 2^32, it returns 0 and stores M and
    m, whatever the fields held before. *)
Theorem get_major_minor_reads_numbers class_dev udev ma mi rest :
  0 ≤ ma < 2 ^ 32 → 0 ≤ mi < 2 ^ 32 →
  starts_with_digit rest = false →
  sysfs_get_classdev_attr class_dev "dev" = Some (utoa ma +:+ ":" +:+ utoa mi +:+ rest) →
  get_major_minor class_dev udev = (0, set_major_minor ma mi udev).
Proof.
  intros Hma Hmi Hrest Hattr. unfold get_major_minor. rewrite Hattr.
  unfold sscanf_u_colon_u. rewrite scan_u_utoa by done.
  change (":" +:+ utoa mi +:+ rest) with (String colon (utoa mi +:+ rest)).
  cbv beta iota. rewrite bool_decide_true by done. by rewrite scan_u_utoa.
Qed.

(** The owner and group fields of create_node: a decimal number below 2^32
    is the id, and no lookup is made; a number followed by other text is
    looked up as a name, and an unknown name gives 0. *)
Theorem resolve_id_number_or_name lookup n rest :
  0 ≤ n < 2 ^ 32 →
  resolve_id lookup (utoa n) = n
  ∧ (rest ≠ "" → starts_with_digit rest = false →
     resolve_id lookup (utoa n +:+ rest) = default 0 (lookup (utoa n +:+ rest))).
Proof.
  intros Hn. unfold resolve_id. split.
  - rewrite bool_decide_false by apply utoa_nonempty.
    rewrite <- (str_app_nil_r (utoa n)) at 1.
    rewrite strtoul_utoa by (done || lia).
    rewrite bool_decide_true by done. apply Z.mod_small. lia.
  - intros Hrest Hdigit.
    rewrite bool_decide_false.
    2: { intros Hempty. apply (f_equal String.length) in Hempty.
         rewrite str_app_length in Hempty. destruct rest; [done|]. simpl in Hempty. lia. }
    rewrite strtoul_utoa by (done || lia).
    rewrite bool_decide_false by done. by destruct (lookup _).
Qed.

End NumbersRead.

(** The "dev" file of sdb, read into a descriptor that held other numbers. *)
Lemma get_major_minor_reads_numbers_witness :
  UdevAdd.get_major_minor MoreSamples.sdb_dev Samples.sda
  = (0, UdevAdd.set_major_minor 8 16 Samples.sda).
Proof.
  apply (get_major_minor_reads_numbers MoreSamples.sdb_dev Samples.sda 8 16
           (String CStr.newline "")).
  - lia.
  - lia.
  - reflexivity.
  - vm_compute. reflexivity.
Defined.

(** The owner "500" is the uid 500; the owner "500kay" is a name, unknown
    here. *)
Lemma resolve_id_number_or_name_witness :
  UdevAdd.resolve_id Samples.nobody "500" = 500
  ∧ UdevAdd.resolve_id Samples.nobody "500kay" = 0.
Proof.
  destruct (resolve_id_number_or_name Samples.nobody 500 "kay" ltac:(lia))
    as [Hnumber Hname].
  split; [exact Hnumber|]. apply Hname; [discriminate|reflexivity].
Defined.

(** ** The database files of the klibc shims *)

Section KlibcFound.
Import CStr Klibc Notions MoreNotions.

Variable LINE_SIZE : nat.
Variables ulong_bits id_bits : Z.
Variable file_map : string → option string.

Lemma strsep_colon_count line tok pos :
  strsep_colon line = (tok, pos) →
  count_colons line = match pos with Some p => S (count_colons p) | None => 0%nat end.
Proof.
  revert tok pos. induction line as [|c line IH]; intros tok pos; simpl.
  { by intros [= <- <-]. }
  case_bool_decide.
  - by intros [= <- <-].
  - destruct (strsep_colon line) as [tok' pos']. intros [= <- <-]. by apply (IH tok').
Qed.

Lemma strsep_colon_field field rest :
  count_colons field = 0%nat →
  strsep_colon (field +:+ String colon rest) = (field, Some rest).
Proof.
  induction field as [|c field IH]; intros Hcount.
  { done. }
  rewrite str_app_cons. simpl in *. case_bool_decide; [done|].
  by rewrite IH.
Qed.

Lemma strsep_colon_last field :
  count_colons field = 0%nat → strsep_colon field = (field, None).
Proof.
  induction field as [|c field IH]; intros Hcount; [done|].
  simpl in *. case_bool_decide; [done|]. by rewrite IH.
Qed.

Lemma passed_over_continues uname line :
  passed_over LINE_SIZE uname line → get_id_line LINE_SIZE ulong_bits uname line = None.
Proof.
  intros [Hlong|[Hfew|Hother]].
  - unfold get_id_line. by rewrite bool_decide_true.
  - unfold get_id_line. case_bool_decide; [done|].
    destruct (strsep_colon line) as [nm [p1|]] eqn:E1; [|done].
    apply strsep_colon_count in E1.
    destruct (strsep_colon p1) as [pw [p2|]] eqn:E2; [|done].
    apply strsep_colon_count in E2. lia.
  - destruct (get_id_line _ _ _ _) eqn:E; [|done].
    by apply get_id_line_matches in E.
Qed.

Lemma get_id_loop_first_entry uname before line after id :
  Forall (passed_over LINE_SIZE uname) before →
  get_id_line LINE_SIZE ulong_bits uname line = Some id →
  get_id_loop LINE_SIZE ulong_bits uname (before ++ line :: after) = id.
Proof.
  intros Hbefore Hline. induction Hbefore as [|l before Hl _ IH]; simpl.
  - by rewrite Hline.
  - by rewrite (passed_over_continues _ _ Hl).
Qed.

(** The line of a name, read: the id field decides. *)
Lemma get_id_line_entry uname passwd idstr more :
  count_colons uname = 0%nat → count_colons passwd = 0%nat →
  count_colons idstr = 0%nat →
  more = "" ∨ (∃ m, more = String colon m) →
  (String.length (db_line uname passwd idstr more) < LINE_SIZE)%nat →
  get_id_line LINE_SIZE ulong_bits uname (db_line uname passwd idstr more)
  = Some (if bool_decide ((strtoul ulong_bits idstr).2 = "")
          then (strtoul ulong_bits idstr).1 else ULONG_MINUS_ONE ulong_bits).
Proof.
  intros Hname Hpasswd Hid Hmore Hshort. unfold get_id_line.
  rewrite bool_decide_false by lia.
  change (db_line uname passwd idstr more)
    with (uname +:+ String colon (passwd +:+ String colon (idstr +:+ more))).
  rewrite strsep_colon_field by done. cbv beta iota.
  rewrite strsep_colon_field by done. cbv beta iota.
  assert (∃ pos, strsep_colon (idstr +:+ more) = (idstr, pos)) as [pos ->].
  { destruct Hmore as [->|[m ->]].
    - rewrite str_app_nil_r. eexists. by apply strsep_colon_last.
    - eexists. by apply strsep_colon_field. }
  rewrite bool_decide_true by done. by destruct (strtoul ulong_bits idstr).
Qed.

Lemma count_colons_pretty_go x s : count_colons (pretty_N_go x s) = count_colons s.
Proof.
  revert s. induction (N.lt_wf_0 x) as [x _ IH]; intros s.
  assert (x = 0 ∨ 0 < x)%N as [->|Hx] by lia; [by rewrite pretty_N_go_0|].
  rewrite pretty_N_go_step, IH by (done || by apply N.div_lt). simpl.
  rewrite bool_decide_false; [done|].
  unfold pretty_N_char. by repeat case_match.
Qed.

Lemma count_colons_utoa i : count_colons (utoa i) = 0%nat.
Proof.
  unfold utoa, pretty, pretty_N. case_decide; [done|]. apply count_colons_pretty_go.
Qed.

(** A name is found: when every line before the first line "name:passwd:id"
    is passed over (it is too long, has fewer than three fields, or starts
    with another name), and the id is the decimal text of a number that a
    uid_t holds, get_id_by_name returns that number, and getpwnam and
    getgrnam return a record with it, whatever the later lines say. *)
Theorem klibc_lookup_finds_first_entry dbfile buf uname passwd n more before after :
  0 ≤ id_bits ≤ ulong_bits → 0 ≤ n < 2 ^ id_bits →
  file_map dbfile = Some buf →
  buf_lines buf = before ++ db_line uname passwd (utoa n) more :: after →
  Forall (passed_over LINE_SIZE uname) before →
  count_colons uname = 0%nat → count_colons passwd = 0%nat →
  more = "" ∨ (∃ m, more = String colon m) →
  (String.length (db_line uname passwd (utoa n) more) < LINE_SIZE)%nat →
  get_id_by_name LINE_SIZE ulong_bits file_map uname dbfile = n
  ∧ (dbfile = PW_FILE →
     getpwnam LINE_SIZE ulong_bits id_bits file_map uname = Some {| pw_uid := n |})
  ∧ (dbfile = GR_FILE →
     getgrnam LINE_SIZE ulong_bits id_bits file_map uname = Some {| gr_gid := n |}).
Proof.
  intros Hbits Hn Hfile Hlines Hbefore Hname Hpasswd Hmore Hshort.
  assert (2 ^ id_bits ≤ 2 ^ ulong_bits) by (apply Z.pow_le_mono_r; lia).
  assert (get_id_by_name LINE_SIZE ulong_bits file_map uname dbfile = n) as Hid.
  { unfold get_id_by_name. rewrite Hfile, Hlines.
    erewrite get_id_loop_first_entry;
      [|done|apply get_id_line_entry; [done|done|apply count_colons_utoa|done|done]].
    rewrite <- (str_app_nil_r (utoa n)), strtoul_utoa by (done || lia).
    by rewrite bool_decide_true. }
  assert (to_id id_bits n = n) as Hcast by (apply Z.mod_small; lia).
  split; [done|]. unfold getpwnam, getgrnam. simpl.
  split; intros ->; rewrite Hid, Hcast; by rewrite (proj2 (Z.ltb_ge _ _)) by lia.
Qed.

(** The first entry of a name decides also when its id field is not a
    number through its end: get_id_by_name stops there with
    [(unsigned long) -1], and a later, well-formed line of the same name is
    never read. *)
Theorem klibc_lookup_stops_at_first_entry
    dbfile buf uname passwd idstr more before after :
  0 ≤ ulong_bits →
  file_map dbfile = Some buf →
  buf_lines buf = before ++ db_line uname passwd idstr more :: after →
  Forall (passed_over LINE_SIZE uname) before →
  count_colons uname = 0%nat → count_colons passwd = 0%nat →
  count_colons idstr = 0%nat →
  more = "" ∨ (∃ m, more = String colon m) →
  (String.length (db_line uname passwd idstr more) < LINE_SIZE)%nat →
  (strtoul ulong_bits idstr).2 ≠ "" →
  get_id_by_name LINE_SIZE ulong_bits file_map uname dbfile = 2 ^ ulong_bits - 1.
Proof.
  intros Hbits Hfile Hlines Hbefore Hname Hpasswd Hid Hmore Hshort Hjunk.
  unfold get_id_by_name. rewrite Hfile, Hlines.
  erewrite get_id_loop_first_entry; [|done|by apply get_id_line_entry].
  rewrite bool_decide_false by done. by apply ulong_minus_one.
Qed.

End KlibcFound.

(** kay stands in the second line of the sample passwd file, after root. *)
Lemma klibc_lookup_finds_first_entry_witness :
  Klibc.getpwnam 512 64 32 Samples.passwd_file "kay" = Some {| Klibc.pw_uid := 500 |}.
Proof.
  refine (proj1 (proj2 (klibc_lookup_finds_first_entry 512 64 32 Samples.passwd_file
    "/etc/passwd"
    ("root:x:0:0:root:/root:/bin/sh"
     +:+ String CStr.newline "kay:x:500:500::/home/kay:/bin/sh")
    "kay" "x" 500 ":500::/home/kay:/bin/sh"
    ["root:x:0:0:root:/root:/bin/sh"] [] _ _ _ _ _ _ _ _ _)) _).
  - lia.
  - lia.
  - reflexivity.
  - vm_compute. reflexivity.
  - constructor; [|constructor]. right. right. vm_compute. discriminate.
  - reflexivity.
  - reflexivity.
  - right. by eexists.
  - vm_compute. lia.
  - reflexivity.
Defined.

(** The first line of kay carries the id "5oo": the lookup gives
    [(unsigned long) -1] although the next line has the id 500. *)
Lemma klibc_lookup_stops_at_first_entry_witness :
  Klibc.get_id_by_name 512 64 MoreSamples.damaged_passwd_file "kay" "/etc/passwd"
  = 18446744073709551615.
Proof.
  refine (klibc_lookup_stops_at_first_entry 512 64 MoreSamples.damaged_passwd_file
    "/etc/passwd"
    ("kay:x:5oo:500::/home/kay:/bin/sh"
     +:+ String CStr.newline "kay:x:500:500::/home/kay:/bin/sh")
    "kay" "x" "5oo" ":500::/home/kay:/bin/sh"
    [] ["kay:x:500:500::/home/kay:/bin/sh"] _ _ _ _ _ _ _ _ _ _).
  - lia.
  - reflexivity.
  - vm_compute. reflexivity.
  - constructor.
  - reflexivity.
  - reflexivity.
  - reflexivity.
  - right. by eexists.
  - vm_compute. lia.
  - vm_compute. discriminate.
Defined.

(** ** make_node: what it changes, and how it fails *)

Section MakeNodeEffects.
Import CStr Sys UdevAdd Notions MoreNotions.

Implicit Types (w : world) (file p : string).

Local Ltac run := unfold mbind, M_bind, mret, M_ret, emit; simpl.

Lemma make_node_perms_requests retval file mode uid gid w :
  ∃ evs, trace (make_node_perms retval file mode uid gid w).2 = trace w ++ evs
         ∧ Forall (λ e, node_request file e = true) evs.
Proof.
  unfold make_node_perms, sys_chmod, sys_chown. run.
  assert (node_request file (EvChmod file mode) = true) as Hchmod
    by (by apply bool_decide_eq_true).
  assert (node_request file (EvChown file uid gid) = true) as Hchown
    by (by apply bool_decide_eq_true).
  destruct (files w !! file) as [n|]; simpl.
  2: { exists [EvChmod file mode]. by repeat constructor. }
  destruct (refuses w (EvChmod file mode)); simpl.
  { exists [EvChmod file mode]. by repeat constructor. }
  destruct (bool_decide (uid ≠ 0) || bool_decide (gid ≠ 0)); simpl.
  2: { exists [EvChmod file mode]. by repeat constructor. }
  rewrite lookup_insert_eq.
  destruct (refuses w (EvChown file uid gid)); simpl;
    (exists [EvChmod file mode; EvChown file uid gid];
     split; [by rewrite <- app_assoc|by repeat constructor]).
Qed.

Lemma make_node_create_requests file major minor mode uid gid w :
  ∃ evs, trace (make_node_create file major minor mode uid gid w).2 = trace w ++ evs
         ∧ Forall (λ e, node_request file e = true) evs.
Proof.
  unfold make_node_create. run.
  set (w0 := log (EvSetfscreatecon file mode) w).
  assert (∃ evs, trace (sys_mknod file mode (makedev major minor) w0).2 = trace w ++ evs
                 ∧ Forall (λ e, node_request file e = true) evs) as (evs & Htrace & Hevs).
  { exists [EvSetfscreatecon file mode; EvMknod file mode (makedev major minor)].
    split; [|repeat constructor; by apply bool_decide_eq_true].
    subst w0. unfold sys_mknod. simpl.
    destruct (files w !! file); [simpl; by rewrite <- app_assoc|].
    destruct (mknod_type mode); [|simpl; by rewrite <- app_assoc].
    destruct (refuses w _); simpl; by rewrite <- app_assoc. }
  destruct (sys_mknod file mode (makedev major minor) w0) as [r w1]. simpl in *.
  case_bool_decide; [by exists evs|].
  destruct (make_node_perms_requests r file mode uid gid w1) as (evs' & Htrace' & Hevs').
  exists (evs ++ evs'). split; [|by apply Forall_app].
  by rewrite Htrace', Htrace, <- app_assoc.
Qed.

Lemma make_node_requests file major minor mode uid gid w :
  ∃ evs, trace (make_node file major minor mode uid gid w).2 = trace w ++ evs
         ∧ Forall (λ e, node_request file e = true) evs.
Proof.
  unfold make_node, sys_stat. run.
  destruct (files w !! file) as [stats|] eqn:Hfile; [|apply make_node_create_requests].
  destruct (_ && _); run.
  - destruct (make_node_perms_requests 0 file mode uid gid
                (log (EvSetfilecon file (st_mode stats)) w)) as (evs & Htrace & Hevs).
    exists (EvSetfilecon file (st_mode stats) :: evs). split.
    + rewrite Htrace. simpl. by rewrite <- app_assoc.
    + constructor; [by apply bool_decide_eq_true|done].
  - assert (trace (sys_unlink file w).2 = trace w ++ [EvUnlink file]) as Hunlink.
    { unfold sys_unlink. simpl. rewrite Hfile. by destruct (refuses w _ || _). }
    destruct (sys_unlink file w) as [r w1]. simpl in *.
    destruct (make_node_create_requests file major minor mode uid gid w1)
      as (evs & Htrace & Hevs).
    exists (EvUnlink file :: evs). split.
    + rewrite Htrace, Hunlink. by rewrite <- app_assoc.
    + constructor; [by apply bool_decide_eq_true|done].
Qed.


Lemma make_node_create_failure file major minor mode uid gid w r w' :
  make_node_create file major minor mode uid gid w = (r, w') →
  r ≠ 0 →
  r = -1
  ∧ w' = log_all [EvSetfscreatecon file mode; EvMknod file mode (makedev major minor)] w.
Proof.
  unfold make_node_create, sys_mknod. run.
  assert (log (EvMknod file mode (makedev major minor)) (log (EvSetfscreatecon file mode) w)
    = log_all [EvSetfscreatecon file mode; EvMknod file mode (makedev major minor)] w) as Hlog.
  { unfold log, log_all; simpl. by rewrite <- app_assoc. }
  destruct (files w !! file); [by intros [= <- <-] _|].
  destruct (mknod_type mode); [|by intros [= <- <-] _].
  destruct (refuses w _); [by intros [= <- <-] _|]. simpl.
  intros Hperms Hr.
  match type of Hperms with make_node_perms 0 _ _ _ _ ?w0 = _ =>
    pose proof (make_node_perms_result 0 file mode uid gid w0) as Hres end.
  rewrite Hperms in Hres. by simpl in Hres.
Qed.

(** make_node fails through mknod alone: a result other than 0 is -1, the
    last request made is the refused mknod (after an unlink, when an entry
    stood in the way), no chmod or chown follows, no inode is made, and the
    entry at [file] is either untouched or gone. *)
Theorem make_node_fails_at_mknod file major minor mode uid gid w :
  let r := (make_node file major minor mode uid gid w).1 in
  let w' := (make_node file major minor mode uid gid w).2 in
  r ≠ 0 →
  r = -1
  ∧ (∃ before, (before = [] ∨ before = [EvUnlink file])
       ∧ trace w' = trace w ++ before ++
           [EvSetfscreatecon file mode; EvMknod file mode (makedev major minor)])
  ∧ next_ino w' = next_ino w
  ∧ (files w' = files w ∨ files w' = delete file (files w)).
Proof.
  intros r w'. subst r w'.
  destruct (make_node file major minor mode uid gid w) as [r w'] eqn:Hrun. simpl.
  revert Hrun. unfold make_node, sys_stat. run.
  destruct (files w !! file) as [stats|] eqn:Hfile.
  - destruct (_ && _); run.
    { intros Hperms Hr.
      match type of Hperms with make_node_perms 0 _ _ _ _ ?w0 = _ =>
        pose proof (make_node_perms_result 0 file mode uid gid w0) as Hres end.
      rewrite Hperms in Hres. by simpl in Hres. }
    unfold sys_unlink. simpl. rewrite Hfile.
    destruct (refuses w (EvUnlink file) || _).
    + intros Hcreate Hr.
      destruct (make_node_create_failure _ _ _ _ _ _ _ _ _ Hcreate Hr) as [-> ->].
      split_and!; [done| |done|by left].
      exists [EvUnlink file]. split; [by right|]. simpl. by rewrite <- app_assoc.
    + intros Hcreate Hr.
      destruct (make_node_create_failure _ _ _ _ _ _ _ _ _ Hcreate Hr) as [-> ->].
      split_and!; [done| |done|by right].
      exists [EvUnlink file]. split; [by right|]. simpl. by rewrite <- app_assoc.
  - intros Hcreate Hr.
    destruct (make_node_create_failure _ _ _ _ _ _ _ _ _ Hcreate Hr) as [-> ->].
    split_and!; [done| |done|by left]. exists []. by split; [left|].
Qed.

Lemma make_node_perms_events retval file mode uid gid w :
  ∃ evs,
    trace (make_node_perms retval file mode uid gid w).2 = trace w ++ evs
    ∧ Forall (λ e, perms_event e = true) evs
    ∧ next_ino (make_node_perms retval file mode uid gid w).2 = next_ino w.
Proof.
  unfold make_node_perms, sys_chmod, sys_chown. run.
  destruct (files w !! file) as [n|]; simpl.
  2: { exists [EvChmod file mode]. by repeat constructor. }
  destruct (refuses w (EvChmod file mode)); simpl.
  { exists [EvChmod file mode]. by repeat constructor. }
  destruct (bool_decide (uid ≠ 0) || bool_decide (gid ≠ 0)); simpl.
  2: { exists [EvChmod file mode]. by repeat constructor. }
  rewrite lookup_insert_eq.
  destruct (refuses w (EvChown file uid gid)); simpl;
    (exists [EvChmod file mode; EvChown file uid gid];
     split; [by rewrite <- app_assoc|by repeat constructor]).
Qed.


(** When the entry at [file] is missing, or is neither a symbolic link nor a
    directory and not a device node with the requested number, and the
    system refuses neither the unlink nor the mknod, make_node makes the
    node for a block or char mode: it returns 0 after one unlink (when an
    entry stood in the way), the label, one mknod and the requests of the
    `perms:` step, and the entry at [file] is then a node with the requested
    device number and the type bits of the mode. *)
Theorem make_node_replaces_other_entry file major minor mode uid gid w :
  is_device_type (Z.land mode S_IFMT) = true →
  plain_at file w = true →
  match files w !! file with
  | Some old =>
      is_device_type (Z.land (st_mode old) S_IFMT)
      && bool_decide (st_rdev old = makedev major minor) = false
      ∧ refuses w (EvUnlink file) = false
  | None => True
  end →
  refuses w (EvMknod file mode (makedev major minor)) = false →
  let w' := (make_node file major minor mode uid gid w).2 in
  (make_node file major minor mode uid gid w).1 = 0
  ∧ (∃ evs, trace w' = trace w
       ++ match files w !! file with Some _ => [EvUnlink file] | None => [] end
       ++ [EvSetfscreatecon file mode; EvMknod file mode (makedev major minor)] ++ evs
       ∧ Forall (λ e, perms_event e = true) evs)
  ∧ ∃ node, files w' !! file = Some node
      ∧ st_rdev node = makedev major minor
      ∧ Z.land (st_mode node) S_IFMT = Z.land mode S_IFMT.
Proof.
  intros Hdev Hplain Hentry Hmknod w'. subst w'.
  (* the `create:` label, entered without an entry at [file] *)
  assert (∀ w0, files w0 !! file = None → refuses w0 = refuses w →
    (make_node_create file major minor mode uid gid w0).1 = 0
    ∧ (∃ evs, trace (make_node_create file major minor mode uid gid w0).2
              = trace w0 ++ [EvSetfscreatecon file mode;
                             EvMknod file mode (makedev major minor)] ++ evs
              ∧ Forall (λ e, perms_event e = true) evs)
    ∧ ∃ node, files (make_node_create file major minor mode uid gid w0).2 !! file = Some node
        ∧ st_rdev node = makedev major minor
        ∧ Z.land (st_mode node) S_IFMT = Z.land mode S_IFMT) as Hcreate.
  { intros w0 Hnone Hrefuses. unfold make_node_create, sys_mknod. run.
    rewrite Hnone, (mknod_type_device _ Hdev), Hrefuses, Hmknod. simpl.
    match goal with |- context [make_node_perms 0 _ _ _ _ ?w1] => set (wn := w1) end.
    pose proof (make_node_perms_result 0 file mode uid gid wn) as Hres.
    destruct (make_node_perms_events 0 file mode uid gid wn) as (evs & Htrace & Hevs & Hino).
    destruct (make_node_perms 0 file mode uid gid wn) as [r w1] eqn:Hperms.
    simpl in *. subst r.
    eapply make_node_perms_settles in Hperms
      as (_ & _ & node & [Hnode _] & Hi & Hr & Ht); [|apply lookup_insert_eq].
    simpl in *. split_and!; [done| |].
    - exists evs. split; [|done]. rewrite Htrace. by rewrite <- !app_assoc.
    - exists node. split_and!; [done| |].
      + by rewrite Hr, Hdev.
      + rewrite Ht, Z.land_lor_distr_l, perm_bits_have_no_type, Z.lor_0_r.
        rewrite <- Z.land_assoc. by change (Z.land S_IFMT S_IFMT) with S_IFMT. }
  apply plain_at_no_dir in Hplain. unfold dir_at in Hplain.
  unfold make_node, sys_stat. run.
  destruct (files w !! file) as [old|] eqn:Hfile.
  - destruct Hentry as [-> Hunlink]. run.
    unfold sys_unlink. simpl. rewrite Hfile, Hunlink, Hplain. simpl.
    match goal with |- context [make_node_create _ _ _ _ _ _ ?w1] => set (w0 := w1) end.
    destruct (Hcreate w0) as (Hres & (evs & Htrace & Hevs) & Hnode);
      [apply lookup_delete_eq|done|].
    split_and!; [done| |done].
    exists evs. split; [|done]. rewrite Htrace. simpl. by rewrite <- !app_assoc.
  - destruct (Hcreate w) as (Hres & (evs & Htrace & Hevs) & Hnode); [done..|].
    split_and!; [done| |done]. by exists evs.
Qed.

End MakeNodeEffects.


(** A system that refuses mknod: the call fails with -1 and no inode is
    used. *)
Lemma make_node_fails_at_mknod_witness :
  (UdevAdd.make_node "/udev/sda" 8 0 (Z.lor Sys.S_IFBLK 432) 0 0
     MoreSamples.mknod_refused_world).1 = -1
  ∧ Sys.next_ino (UdevAdd.make_node "/udev/sda" 8 0 (Z.lor Sys.S_IFBLK 432) 0 0
                    MoreSamples.mknod_refused_world).2 = 3%N.
Proof.
  destruct (make_node_fails_at_mknod "/udev/sda" 8 0 (Z.lor Sys.S_IFBLK 432) 0 0
              MoreSamples.mknod_refused_world) as (Hresult & _ & Hino & _).
  - vm_compute. discriminate.
  - split; [exact Hresult|exact Hino].
Defined.


(** The char node ttyS0 (4, 64) is replaced when the number (4, 65) is asked
    for. *)
Lemma make_node_replaces_other_entry_witness :
  (UdevAdd.make_node "/udev/ttyS0" 4 65 (Z.lor Sys.S_IFCHR 432) 0 0
     MoreSamples.ttyS0_world).1 = 0
  ∧ ∃ node,
      Sys.files (UdevAdd.make_node "/udev/ttyS0" 4 65 (Z.lor Sys.S_IFCHR 432) 0 0
                   MoreSamples.ttyS0_world).2 !! "/udev/ttyS0" = Some node
      ∧ Sys.st_rdev node = Sys.makedev 4 65.
Proof.
  destruct (make_node_replaces_other_entry "/udev/ttyS0" 4 65 (Z.lor Sys.S_IFCHR 432) 0 0
              MoreSamples.ttyS0_world) as (Hresult & _ & node & Hnode & Hrdev & _).
  - reflexivity.
  - reflexivity.
  - vm_compute. split; reflexivity.
  - reflexivity.
  - split; [exact Hresult|]. exists node. split; [exact Hnode|exact Hrdev].
Defined.

(** ** The entry point: results, labels, failures *)

Section EntryPointMore.
Import CStr Sys UdevAdd Notions MoreNotions.

Variables NAME_SIZE DEVPATH_SIZE : nat.
Variable udev_root : string.
Variable namedev_name_device : udevice → sysfs_class_device → Z * udevice.
Variable udev_db_add_device : udevice → Z.
Variables getpwnam getgrnam : string → option Z.

Local Abbreviation add_device :=
  (udev_add_device NAME_SIZE DEVPATH_SIZE udev_root namedev_name_device
                   udev_db_add_device getpwnam getgrnam).
Local Abbreviation create_node' := (create_node NAME_SIZE udev_root getpwnam getgrnam).

Implicit Types (w : world) (udev : udevice).

Local Ltac run := unfold mbind, M_bind, mret, M_ret, emit; simpl.

Lemma create_node_result udev w :
  is_b_or_c (type udev) = true →
  (create_node' udev w).1.1 = 0 ∨ (create_node' udev w).1.1 = -1.
Proof.
  intros Htype. destruct (type_bits_b_or_c _ Htype) as (bit & Hbits & _).
  unfold create_node. rewrite Hbits. run.
  match goal with |- context [?f w] =>
    lazymatch f with (if has_slash _ then _ else _) => destruct (f w) as [[] w0] end end.
  match goal with |- context [?f w0] =>
    lazymatch f with (if negb _ then _ else _) => destruct (f w0) as [r w1] end end.
  case_bool_decide; simpl; [by right|].
  match goal with |- context [?f w1] =>
    lazymatch f with (if _ && _ then _ else _) => destruct (f w1) as [[] w2] end end.
  destruct (for_each _ _ w2) as [[] w3]. by left.
Qed.

Lemma rename_net_if_result udev w :
  (rename_net_if udev w).1 = 0 ∨ (rename_net_if udev w).1 = -1.
Proof.
  unfold rename_net_if, sys_socket, sys_ioctl_SIOCSIFNAME, sys_close.
  destruct (test_run udev); [by left|]. run.
  destruct (refuses w EvSocket); simpl; [by right|].
  destruct (_ || _); simpl; [by right|by left].
Qed.

(** udev_add_device returns 0 or -1, whatever the descriptor, the sysfs
    entry, the collaborators and the system do: the -EINVAL of create_node's
    switch never reaches its caller, because create_node is called for the
    types 'b' and 'c' alone. *)
Theorem udev_add_device_returns_0_or_minus_1 udev class_dev w :
  let result := udev_add_device NAME_SIZE DEVPATH_SIZE udev_root namedev_name_device
                                udev_db_add_device getpwnam getgrnam udev class_dev w in
  result.1.1 = 0 ∨ result.1.1 = -1.
Proof.
  intros result. subst result.
  unfold udev_add_device. case_bool_decide; [by left|]. run.
  destruct (namedev_name_device _ class_dev) as [named u1].
  case_bool_decide; run; [by left|].
  unfold add_named_device.
  set (w0 := log EvSelinuxInit (log EvNameDevice w)).
  destruct (is_b_or_c (type u1)) eqn:Htype.
  - run. pose proof (create_node_result u1 w0 Htype) as Hr.
    destruct (create_node' u1 w0) as [[r u2] w1]. simpl in *.
    case_bool_decide; run; [done|]. by left.
  - case_bool_decide; [|by left].
    case_bool_decide; [|by left]. run.
    pose proof (rename_net_if_result u1 w0) as Hr.
    destruct (rename_net_if u1 w0) as [r w1]. simpl in *.
    case_bool_decide; run; [done|].
    destruct (fake_devpath _ _ _ w1) as [u2 w2]. simpl. by left.
Qed.

(** Every call that reaches the naming collaborator ends by restoring the
    security labels: either udev_add_device returned before naming and left
    the world as it was (the resolution miss of a block or char device), or
    the last event it raised is selinux_restore, on success and on every
    failure alike. *)
Theorem labels_are_restored_last udev class_dev w :
  let result := udev_add_device NAME_SIZE DEVPATH_SIZE udev_root namedev_name_device
                                udev_db_add_device getpwnam getgrnam udev class_dev w in
  result.2 = w ∨ last (trace result.2) = Some EvSelinuxRestore.
Proof.
  intros result. subst result.
  unfold udev_add_device. case_bool_decide; [by left|]. right. run.
  destruct (namedev_name_device _ class_dev) as [named u1].
  case_bool_decide; run; [apply last_snoc|].
  destruct (add_named_device _ _ _ _ _ _ _ _) as [[r u2] w1]. apply last_snoc.
Qed.

(** A failure of the naming collaborator is not reported: udev_add_device
    returns 0.  It hands back the descriptor as the naming call left it,
    creates and renames nothing, and restores the security labels without
    having initialised them. *)
Theorem naming_failure_returns_success udev class_dev w :
  let resolved :=
    if is_b_or_c (type udev) then get_major_minor class_dev udev else (0, udev) in
  let named := namedev_name_device resolved.2 class_dev in
  resolved.1 = 0 →
  named.1 ≠ 0 →
  add_device udev class_dev w
  = ((0, named.2), log_all [EvNameDevice; EvSelinuxRestore] w).
Proof.
  intros resolved named Hresolved Hnamed.
  unfold udev_add_device. fold resolved. rewrite bool_decide_false by (by intros ?).
  run. fold named. destruct named as [r u1]. simpl in *.
  rewrite bool_decide_true by done. run.
  unfold log, log_all; simpl. by rewrite <- app_assoc.
Qed.

(** A network interface is renamed: for a network descriptor outside test
    mode whose resolved name differs from the kernel's, on a system that
    accepts the socket and the rename (the old name exists, the new one is
    free), udev_add_device returns 0 after one socket, one SIOCSIFNAME ioctl
    and one close; the interface carries the new name, [devname] is the
    resolved name, and the last segment of [devpath] is replaced by it and
    exported as DEVPATH (when [devpath] has a '/'). *)
Theorem net_rename_succeeds udev class_dev w :
  let named := namedev_name_device udev class_dev in
  let u := named.2 in
  let old := strfieldcpy IFNAMSIZ (kernel_name u) in
  let new := strfieldcpy IFNAMSIZ (name u) in
  let new_devpath :=
    match upto_last_slash (devpath u) with
    | Some dir => strfieldcat DEVPATH_SIZE dir (name u)
    | None => devpath u
    end in
  type udev = "n"%char → named.1 = 0 → type u = "n"%char →
  name u ≠ kernel_name u → test_run u = false →
  refuses w EvSocket = false → refuses w (EvIoctlSIOCSIFNAME old new) = false →
  old ∈ netifs w → new ∉ netifs w →
  let result := add_device udev class_dev w in
  result.1.1 = 0
  ∧ devname result.1.2 = strfieldcpy NAME_SIZE (name u)
  ∧ devpath result.1.2 = new_devpath
  ∧ name result.1.2 = name u
  ∧ netifs result.2 = {[new]} ∪ netifs w ∖ {[old]}
  ∧ files result.2 = files w
  ∧ (is_Some (upto_last_slash (devpath u)) →
     environ result.2 !! "DEVPATH" = Some new_devpath)
  ∧ trace result.2
    = trace w ++ [EvNameDevice; EvSelinuxInit; EvSocket;
                  EvIoctlSIOCSIFNAME old new; EvClose 3]
        ++ match upto_last_slash (devpath u) with
           | Some _ => [EvSetenv "DEVPATH" new_devpath]
           | None => []
           end
        ++ [EvSelinuxRestore].
Proof.
  intros named u old new new_devpath Hin Hnamed Hn Hname Htest Hsocket Hioctl Hold Hnew
    result.
  subst result new_devpath. unfold udev_add_device, is_b_or_c. rewrite Hin. simpl. run.
  fold named. destruct named as [r u1] eqn:E. simpl in *. subst r u.
  rewrite bool_decide_false by (by intros ?). run.
  unfold add_named_device, is_b_or_c. rewrite Hn. simpl.
  rewrite (bool_decide_true (name u1 ≠ kernel_name u1)) by done. run.
  unfold rename_net_if, sys_socket, sys_ioctl_SIOCSIFNAME, sys_close. rewrite Htest. run.
  rewrite Hsocket. simpl. fold old new. rewrite Hioctl. simpl.
  rewrite (bool_decide_false (old ∉ netifs w)) by (by intros ?).
  rewrite (bool_decide_false (new ∈ netifs w)) by done. simpl.
  unfold fake_devpath, sys_setenv. run.
  destruct (upto_last_slash (devpath u1)) as [dir|]; simpl.
  - split_and!; try done.
    + intros _. apply lookup_insert_eq.
    + by rewrite <- !app_assoc.
  - split_and!; try done; try (by intros [? ?]). by rewrite <- !app_assoc.
Qed.

(** A rename that fails is reported and leaves no trace in the descriptor:
    when the socket is refused, or the ioctl fails (refused, no interface of
    the old name, or the new name taken), udev_add_device returns -1 with the
    descriptor as the naming call left it ([devpath] and [devname] are not
    rewritten), DEVPATH is not set, the interfaces are as before, and a
    socket that was opened has been closed. *)
Theorem net_rename_failure_is_reported udev class_dev w :
  let named := namedev_name_device udev class_dev in
  let u := named.2 in
  let old := strfieldcpy IFNAMSIZ (kernel_name u) in
  let new := strfieldcpy IFNAMSIZ (name u) in
  type udev = "n"%char → named.1 = 0 → type u = "n"%char →
  name u ≠ kernel_name u → test_run u = false →
  refuses w EvSocket = true ∨ refuses w (EvIoctlSIOCSIFNAME old new) = true
    ∨ old ∉ netifs w ∨ new ∈ netifs w →
  let result := add_device udev class_dev w in
  result.1 = (-1, u)
  ∧ netifs result.2 = netifs w
  ∧ environ result.2 = environ w
  ∧ files result.2 = files w
  ∧ last (trace result.2) = Some EvSelinuxRestore
  ∧ (refuses w EvSocket = false → EvClose 3 ∈ trace result.2).
Proof.
  intros named u old new Hin Hnamed Hn Hname Htest Hfail result.
  subst result. unfold udev_add_device, is_b_or_c. rewrite Hin. simpl. run.
  fold named. destruct named as [r u1] eqn:E. simpl in *. subst r u.
  rewrite bool_decide_false by (by intros ?). run.
  unfold add_named_device, is_b_or_c. rewrite Hn. simpl.
  rewrite (bool_decide_true (name u1 ≠ kernel_name u1)) by done. run.
  unfold rename_net_if, sys_socket, sys_ioctl_SIOCSIFNAME, sys_close. rewrite Htest. run.
  destruct (refuses w EvSocket) eqn:Hsocket; simpl.
  { split_and!; try done. apply last_snoc. }
  fold old new.
  assert (refuses w (EvIoctlSIOCSIFNAME old new) || bool_decide (old ∉ netifs w)
          || bool_decide (new ∈ netifs w) = true) as ->.
  { destruct Hfail as [?|[->|[?|?]]]; [done|done| |].
    - rewrite (bool_decide_true (old ∉ netifs w)) by done. by rewrite orb_true_r.
    - rewrite (bool_decide_true (new ∈ netifs w)) by done. by rewrite orb_true_r. }
  simpl. split_and!; try done; [apply last_snoc|].
  intros _. apply elem_of_app. left. apply elem_of_app. right. by left.
Qed.

Lemma create_dirs_events dirs w :
  ∃ evs, trace (create_dirs dirs w).2 = trace w ++ evs
         ∧ Forall (λ e, is_mkdir e = true) evs.
Proof.
  revert w. induction dirs as [|d dirs IH]; intros w; simpl.
  { exists []. by rewrite app_nil_r. }
  unfold sys_stat. run. destruct (is_dir (files w !! d)).
  { exists []. by rewrite app_nil_r. }
  destruct (IH w) as (evs & Htrace & Hevs).
  destruct (create_dirs dirs w) as [r w1]. simpl in *.
  case_bool_decide; [by exists evs|].
  exists (evs ++ [EvMkdir d 493]). split.
  - unfold sys_mkdir. simpl. rewrite app_assoc, <- Htrace.
    destruct (files w1 !! d); [done|]. by destruct (refuses w1 _).
  - apply Forall_app. split; [done|]. by repeat constructor.
Qed.

Lemma for_each_symlink_test_mode udev links w :
  test_run udev = true →
  for_each links (create_symlink NAME_SIZE udev_root udev) w = (tt, w).
Proof.
  intros Htest. revert w. induction links as [|t links IH]; intros w; [done|].
  rewrite for_each_cons. unfold create_symlink at 2. rewrite Htest. simpl. run. apply IH.
Qed.

Lemma create_node_test_mode udev w bit :
  test_run udev = true →
  type_bits (type udev) = Some bit →
  create_node' udev w
  = ((0, set_mode (Z.lor (mode udev) bit) udev),
     if has_slash (name udev)
     then (create_path (root_path NAME_SIZE udev_root (name udev)) w).2 else w).
Proof.
  intros Htest Hbits. unfold create_node. rewrite Hbits. simpl. rewrite Htest. simpl.
  rewrite andb_false_r. run.
  destruct (has_slash (name udev)).
  - destruct (create_path _ w) as [r w0]. simpl.
    by rewrite for_each_symlink_test_mode.
  - by rewrite for_each_symlink_test_mode.
Qed.

(** Test mode, for a block or char device that is resolved and named: the
    call returns 0 and writes [devname] as the path under the root; the only
    requests it makes to the system are the mkdir calls for the parent
    directories of the node (none when the name has no '/'): no unlink,
    mknod, chmod, chown or symlink is raised, whatever partitions and
    symlinks the descriptor asks for. *)
Theorem test_mode_makes_directories_only udev class_dev w :
  let resolved := get_major_minor class_dev udev in
  let named := namedev_name_device resolved.2 class_dev in
  let u := named.2 in
  is_b_or_c (type udev) = true → resolved.1 = 0 → named.1 = 0 →
  is_b_or_c (type u) = true → test_run u = true →
  let result := add_device udev class_dev w in
  result.1.1 = 0
  ∧ devname result.1.2 = root_path NAME_SIZE udev_root (name u)
  ∧ ∃ dirs,
      trace result.2
      = trace w ++ [EvNameDevice; EvSelinuxInit] ++ dirs ++ [EvDbAdd; EvSelinuxRestore]
      ∧ Forall (λ e, is_mkdir e = true) dirs
      ∧ (has_slash (name u) = false → dirs = []).
Proof.
  intros resolved named u Hin Hresolved Hnamed Htype Htest result. subst result.
  destruct (type_bits_b_or_c _ Htype) as (bit & Hbits & _).
  unfold udev_add_device. rewrite Hin. fold resolved.
  rewrite bool_decide_false by (by intros ?). run.
  fold named. destruct named as [r u1] eqn:E. simpl in *. subst r u.
  rewrite bool_decide_false by (by intros ?). run.
  unfold add_named_device. rewrite Htype.
  unfold mbind, M_bind. rewrite (create_node_test_mode u1 _ bit Htest Hbits).
  run. split_and!; [done..|].
  destruct (has_slash (name u1)).
  - destruct (create_dirs_events (parent_dirs (root_path NAME_SIZE udev_root (name u1)))
                (log EvSelinuxInit (log EvNameDevice w))) as (dirs & Htrace & Hdirs).
    exists dirs. split_and!; [|done|done].
    unfold create_path. rewrite Htrace. simpl. by rewrite <- !app_assoc.
  - exists []. split_and!; [|done|done]. simpl. by rewrite <- !app_assoc.
Qed.



End EntryPointMore.

(** sdb is resolved, then the naming collaborator fails. *)
Lemma naming_failure_returns_success_witness :
  UdevAdd.udev_add_device 256 256 "/udev" MoreSamples.name_fails Samples.db_ok
    Samples.nobody Samples.nobody Samples.sda MoreSamples.sdb_dev Samples.empty_world
  = ((0, UdevAdd.set_major_minor 8 16 Samples.sda),
     Sys.log_all [Sys.EvNameDevice; Sys.EvSelinuxRestore] Samples.empty_world).
Proof.
  refine (naming_failure_returns_success 256 256 "/udev" MoreSamples.name_fails
            Samples.db_ok Samples.nobody Samples.nobody Samples.sda MoreSamples.sdb_dev
            Samples.empty_world _ _).
  - vm_compute. reflexivity.
  - vm_compute. discriminate.
Defined.

(** eth0 is given the name lan0. *)
Lemma net_rename_succeeds_witness :
  (UdevAdd.udev_add_device 256 256 "/udev" (Samples.name_as "lan0" "" 0) Samples.db_ok
     Samples.nobody Samples.nobody Samples.eth0 Samples.no_attributes
     Samples.empty_world).1.1 = 0
  ∧ UdevAdd.devpath
      (UdevAdd.udev_add_device 256 256 "/udev" (Samples.name_as "lan0" "" 0) Samples.db_ok
         Samples.nobody Samples.nobody Samples.eth0 Samples.no_attributes
         Samples.empty_world).1.2 = "/class/net/lan0".
Proof.
  destruct (net_rename_succeeds 256 256 "/udev" (Samples.name_as "lan0" "" 0)
              Samples.db_ok Samples.nobody Samples.nobody Samples.eth0
              Samples.no_attributes Samples.empty_world)
    as (Hresult & _ & Hdevpath & _).
  - reflexivity.
  - reflexivity.
  - reflexivity.
  - discriminate.
  - reflexivity.
  - reflexivity.
  - reflexivity.
  - apply (bool_decide_unpack _). vm_compute. exact I.
  - apply (bool_decide_unpack _). vm_compute. exact I.
  - split; [exact Hresult|exact Hdevpath].
Defined.

(** eth0 cannot be given the name lo, which is taken. *)
Lemma net_rename_failure_is_reported_witness :
  (UdevAdd.udev_add_device 256 256 "/udev" (Samples.name_as "lo" "" 0) Samples.db_ok
     Samples.nobody Samples.nobody Samples.eth0 Samples.no_attributes
     Samples.empty_world).1
  = (-1, (Samples.name_as "lo" "" 0 Samples.eth0 Samples.no_attributes).2).
Proof.
  refine (proj1 (net_rename_failure_is_reported 256 256 "/udev" (Samples.name_as "lo" "" 0)
                   Samples.db_ok Samples.nobody Samples.nobody Samples.eth0
                   Samples.no_attributes Samples.empty_world _ _ _ _ _ _)).
  - reflexivity.
  - reflexivity.
  - reflexivity.
  - discriminate.
  - reflexivity.
  - right. right. right. apply (bool_decide_unpack _). vm_compute. exact I.
Defined.

(** sdb named disk/sdb in test mode. *)
Lemma test_mode_makes_directories_only_witness :
  (UdevAdd.udev_add_device 256 256 "/udev" (Samples.name_as "disk/sdb" "" 0) Samples.db_ok
     Samples.nobody Samples.nobody (Samples.with_test_run Samples.sda)
     MoreSamples.sdb_dev Samples.empty_world).1.1 = 0.
Proof.
  refine (proj1 (test_mode_makes_directories_only 256 256 "/udev"
                   (Samples.name_as "disk/sdb" "" 0) Samples.db_ok Samples.nobody
                   Samples.nobody (Samples.with_test_run Samples.sda)
                   MoreSamples.sdb_dev Samples.empty_world _ _ _ _ _)).
  - reflexivity.
  - vm_compute. reflexivity.
  - reflexivity.
  - reflexivity.
  - reflexivity.
Defined.


(** ** The entry point: failures of the node, and renaming in test mode *)

Section EntryPointEdges.
Import CStr Sys UdevAdd Notions MoreNotions.

Variable NAME_SIZE : nat.
Variable DEVPATH_SIZE : nat.
Variable udev_root : string.
Variable namedev_name_device : udevice → sysfs_class_device → Z * udevice.
Variable udev_db_add_device : udevice → Z.
Variable getpwnam : string → option Z.
Variable getgrnam : string → option Z.

Local Abbreviation add_device :=
  (udev_add_device NAME_SIZE DEVPATH_SIZE udev_root namedev_name_device
                   udev_db_add_device getpwnam getgrnam).

Local Ltac run := unfold mbind, M_bind, mret, M_ret, emit; simpl.

(** When the node cannot be made: a block or char device (before and after
    naming) for which udev_add_device does not return 0 gets -1, and this
    happens outside test mode alone; the requests made to the system are
    mkdir calls for the parent directories followed by make_node's requests
    for the one path root/name: no partition node and no symlink is asked
    for, the database is not updated, and [devname] is not written. *)
Theorem node_failure_stops_the_add udev class_dev w :
  let resolved := get_major_minor class_dev udev in
  let named := namedev_name_device resolved.2 class_dev in
  let u := named.2 in
  let filename := root_path NAME_SIZE udev_root (name u) in
  let result := add_device udev class_dev w in
  is_b_or_c (type udev) = true → is_b_or_c (type u) = true →
  result.1.1 ≠ 0 →
  result.1.1 = -1
  ∧ test_run u = false
  ∧ devname result.1.2 = devname u
  ∧ ∃ dirs requests,
      trace result.2
      = trace w ++ [EvNameDevice; EvSelinuxInit] ++ dirs ++ requests ++ [EvSelinuxRestore]
      ∧ Forall (λ e, is_mkdir e = true) dirs
      ∧ Forall (λ e, node_request filename e = true) requests.
Proof.
  intros resolved named u filename result Hin Htype. subst result.
  destruct (type_bits_b_or_c _ Htype) as (bit & Hbits & _).
  unfold udev_add_device. rewrite Hin. fold resolved.
  case_bool_decide; run; [done|].
  fold named. destruct named as [r u1] eqn:E. simpl in *. subst u.
  case_bool_decide; run; [done|].
  unfold add_named_device. rewrite Htype. run.
  set (w0 := log EvSelinuxInit (log EvNameDevice w)).
  unfold create_node. rewrite Hbits. fold filename. run.
  set (udev' := set_mode (Z.lor (mode u1) bit) u1).
  match goal with |- context [?f w0] =>
    lazymatch f with (if has_slash _ then _ else _) => set (made := f w0) end end.
  assert (∃ dirs, trace made.2 = trace w0 ++ dirs
                  ∧ Forall (λ e, is_mkdir e = true) dirs) as (dirs & Hdirs & Hmk).
  { subst made. destruct (has_slash (name u1)).
    - unfold create_path.
      destruct (create_dirs_events (parent_dirs filename) w0) as (dirs & Htrace & Hmk).
      destruct (create_dirs _ w0) as [r0 w1]. by exists dirs.
    - exists []. by rewrite app_nil_r. }
  destruct made as [[] w1]. simpl in Hdirs.
  destruct (test_run u1) eqn:Htest; simpl.
  { run. rewrite andb_false_r. run.
    destruct (for_each _ _ w1) as [[] w2]. simpl. done. }
  destruct (make_node_requests filename (major u1) (minor u1) (Z.lor (mode u1) bit)
              (resolve_id getpwnam (owner u1)) (resolve_id getgrnam (group u1)) w1)
    as (requests & Hreq & Hnode).
  destruct (make_node filename _ _ _ _ _ w1) as [r1 w2]. simpl in *.
  case_bool_decide as Hr1; run.
  2: { match goal with |- context [?f w2] =>
         lazymatch f with (if _ && _ then _ else _) => destruct (f w2) as [[] w3] end end.
       destruct (for_each _ _ w3) as [[] w4]. simpl. done. }
  intros _. split_and!; [done|done|done|].
  exists dirs, requests. split_and!; [|done|done].
  rewrite Hreq, Hdirs. subst w0. simpl. by rewrite <- !app_assoc.
Qed.

(** Test mode does not keep a network descriptor from being rewritten: for
    a network descriptor in test mode whose resolved name differs from the
    kernel's, no socket is opened and no interface is renamed, yet
    udev_add_device goes on as after a rename: it replaces the last segment
    of [devpath], exports it as DEVPATH (when [devpath] has a '/'), writes
    [devname], and returns 0. *)
Theorem net_test_mode_still_fakes_devpath udev class_dev w :
  let named := namedev_name_device udev class_dev in
  let u := named.2 in
  let new_devpath :=
    match upto_last_slash (devpath u) with
    | Some dir => strfieldcat DEVPATH_SIZE dir (name u)
    | None => devpath u
    end in
  type udev = "n"%char → named.1 = 0 → type u = "n"%char →
  name u ≠ kernel_name u → test_run u = true →
  let result := add_device udev class_dev w in
  result.1.1 = 0
  ∧ devname result.1.2 = strfieldcpy NAME_SIZE (name u)
  ∧ devpath result.1.2 = new_devpath
  ∧ netifs result.2 = netifs w
  ∧ files result.2 = files w
  ∧ (is_Some (upto_last_slash (devpath u)) →
     environ result.2 !! "DEVPATH" = Some new_devpath)
  ∧ trace result.2
    = trace w ++ [EvNameDevice; EvSelinuxInit]
        ++ match upto_last_slash (devpath u) with
           | Some _ => [EvSetenv "DEVPATH" new_devpath]
           | None => []
           end
        ++ [EvSelinuxRestore].
Proof.
  intros named u new_devpath Hin Hnamed Hn Hname Htest result.
  subst result new_devpath. unfold udev_add_device, is_b_or_c. rewrite Hin. simpl. run.
  fold named. destruct named as [r u1] eqn:E. simpl in *. subst r u.
  rewrite bool_decide_false by (by intros ?). run.
  unfold add_named_device, is_b_or_c. rewrite Hn. simpl.
  rewrite (bool_decide_true (name u1 ≠ kernel_name u1)) by done. run.
  unfold rename_net_if. rewrite Htest. run.
  unfold fake_devpath, sys_setenv. run.
  destruct (upto_last_slash (devpath u1)) as [dir|]; simpl.
  - split_and!; try done.
    + intros _. apply lookup_insert_eq.
    + by rewrite <- !app_assoc.
  - split_and!; try done; try (by intros [? ?]). by rewrite <- !app_assoc.
Qed.

End EntryPointEdges.

(** sdb on a system that refuses mknod. *)
Lemma node_failure_stops_the_add_witness :
  (UdevAdd.udev_add_device 256 256 "/udev" (Samples.name_as "sdb" "disk1" 3)
     Samples.db_ok Samples.nobody Samples.nobody Samples.sda MoreSamples.sdb_dev
     MoreSamples.mknod_refused_world).1.1 = -1.
Proof.
  refine (proj1 (node_failure_stops_the_add 256 256 "/udev"
                   (Samples.name_as "sdb" "disk1" 3) Samples.db_ok Samples.nobody
                   Samples.nobody Samples.sda MoreSamples.sdb_dev
                   MoreSamples.mknod_refused_world _ _ _)).
  - reflexivity.
  - reflexivity.
  - vm_compute. discriminate.
Defined.

(** eth0 is to be named lan0, in test mode: the interfaces stay, DEVPATH is
    exported. *)
Lemma net_test_mode_still_fakes_devpath_witness :
  Sys.netifs
    (UdevAdd.udev_add_device 256 256 "/udev" (Samples.name_as "lan0" "" 0) Samples.db_ok
       Samples.nobody Samples.nobody (Samples.with_test_run Samples.eth0)
       Samples.no_attributes Samples.empty_world).2
  = Sys.netifs Samples.empty_world
  ∧ Sys.environ
      (UdevAdd.udev_add_device 256 256 "/udev" (Samples.name_as "lan0" "" 0) Samples.db_ok
         Samples.nobody Samples.nobody (Samples.with_test_run Samples.eth0)
         Samples.no_attributes Samples.empty_world).2 !! "DEVPATH"
    = Some "/class/net/lan0".
Proof.
  destruct (net_test_mode_still_fakes_devpath 256 256 "/udev" (Samples.name_as "lan0" "" 0)
              Samples.db_ok Samples.nobody Samples.nobody
              (Samples.with_test_run Samples.eth0) Samples.no_attributes
              Samples.empty_world)
    as (_ & _ & _ & Hnetifs & _ & Henv & _).
  - reflexivity.
  - reflexivity.
  - reflexivity.
  - discriminate.
  - reflexivity.
  - split; [exact Hnetifs|]. apply Henv. by eexists.
Defined.


(** ** Symlinks beside the node *)

Section LinkBeside.
Import CStr Sys UdevAdd Path Notions MoreNotions.

Variable NAME_SIZE : nat.

Lemma count_slashes_dir d : count_slashes (d +:+ "/") ≠ 0%nat.
Proof. rewrite count_slashes_app. simpl. lia. Qed.

(** A symlink token without '/' (a link directly under the root) gets the
    whole name of the node as its target, with no "../" before it, whatever
    directories the name has, as long as the name fits the buffer. *)
Theorem link_at_root_targets_whole_name n t :
  count_slashes t = 0%nat → (String.length n < NAME_SIZE)%nat →
  link_target NAME_SIZE n t = n.
Proof.
  intros Hflat Hfit.
  destruct (link_target_split NAME_SIZE n t) as (dir & n' & t' & -> & -> & Hdir & ->).
  { lia. }
  rewrite count_slashes_app in Hflat.
  destruct Hdir as [->|[d ->]].
  - simpl in *. by rewrite Hflat.
  - pose proof (count_slashes_dir d). lia.
Qed.

End LinkBeside.

(** The symlink disk0 of the node disk/sda. *)
Lemma link_at_root_targets_whole_name_witness :
  UdevAdd.link_target 256 "disk/sda" "disk0" = "disk/sda".
Proof.
  apply (link_at_root_targets_whole_name 256 "disk/sda" "disk0").
  - reflexivity.
  - simpl. lia.
Defined.

(** ** A symlink on the path of the node *)

Section LinkOverNode.
Import CStr Sys UdevAdd Path Notions MoreNotions.

Variable NAME_SIZE : nat.
Variable DEVPATH_SIZE : nat.
Variable udev_root : string.
Variable namedev_name_device : udevice → sysfs_class_device → Z * udevice.
Variable udev_db_add_device : udevice → Z.
Variable getpwnam : string → option Z.
Variable getgrnam : string → option Z.

Local Abbreviation add_device :=
  (udev_add_device NAME_SIZE DEVPATH_SIZE udev_root namedev_name_device
                   udev_db_add_device getpwnam getgrnam).
Local Abbreviation create_node' := (create_node NAME_SIZE udev_root getpwnam getgrnam).

Local Ltac run := unfold mbind, M_bind, mret, M_ret, emit; simpl.

Lemma for_each_app {A} (body : A → M unit) l1 l2 w :
  for_each (l1 ++ l2) body w = for_each l2 body (for_each l1 body w).2.
Proof.
  revert w. induction l1 as [|x l1 IH]; intros w; [done|].
  rewrite <- app_comm_cons, !for_each_cons. apply IH.
Qed.

Lemma for_each_refuses {A} (body : A → M unit) l w :
  (∀ x w, refuses (body x w).2 = refuses w) →
  refuses (for_each l body w).2 = refuses w.
Proof.
  intros Hbody. revert w. induction l as [|x l IH]; intros w; [done|].
  by rewrite for_each_cons, IH, Hbody.
Qed.

Lemma create_symlink_refuses udev linkname w :
  refuses (create_symlink NAME_SIZE udev_root udev linkname w).2 = refuses w.
Proof.
  by destruct (create_symlink_stable NAME_SIZE udev_root
                 (String "x" (root_path NAME_SIZE udev_root linkname)) udev linkname w
                 (str_cons_ne _ _)).
Qed.

Lemma for_each_invariant {A} (P : world → Prop) (body : A → M unit) l w :
  (∀ x w, P w → P (body x w).2) → P w → P (for_each l body w).2.
Proof.
  intros Hbody. revert w. induction l as [|x l IH]; intros w Hw; [done|].
  rewrite for_each_cons. by apply IH, Hbody.
Qed.

Lemma create_symlink_places_link udev linkname w :
  test_run udev = false →
  (∀ e, refuses w e = false) →
  let filename := root_path NAME_SIZE udev_root linkname in
  dir_at filename w = false →
  ∃ node, files (create_symlink NAME_SIZE udev_root udev linkname w).2 !! filename
          = Some node
    ∧ st_mode node = Z.lor S_IFLNK 511
    ∧ st_target node = link_target NAME_SIZE (name udev) linkname.
Proof.
  intros Htest Hquiet filename Hnodir. unfold create_symlink. fold filename.
  rewrite Htest. simpl. run.
  match goal with |- context [?f w] =>
    lazymatch f with (if has_slash _ then _ else _) => set (dirs := f w) end end.
  assert (∃ w0, (∀ e, refuses w0 e = false) ∧ dir_at filename w0 = false
                ∧ dirs = (tt, w0)) as (w0 & Hquiet0 & Hnodir0 & ->).
  { subst dirs. destruct (has_slash linkname).
    - pose proof (create_path_refuses filename w) as Hr.
      pose proof (create_path_frame filename filename w ltac:(lia)) as Hframe.
      destruct (create_path filename w) as [r w0]. exists w0. split_and!; [| |done].
      + intros e. simpl in Hr. by rewrite Hr.
      + by rewrite (dir_at_frame _ w w0).
    - by exists w. }
  unfold dir_at in Hnodir0. unfold sys_unlink, sys_symlink. simpl.
  destruct (files w0 !! filename) as [old|] eqn:Hold; simpl.
  - rewrite Hquiet0, Hnodir0. simpl. rewrite lookup_delete_eq, Hquiet0. simpl.
    rewrite lookup_insert_eq. by eexists.
  - rewrite Hold, Hquiet0. simpl. rewrite lookup_insert_eq. by eexists.
Qed.

Lemma make_node_holds p file major minor mode uid gid w :
  is_device_type (Z.land mode S_IFMT) = true →
  held p w → held p (make_node file major minor mode uid gid w).2.
Proof.
  intros Hdev (Hquiet & Hsome & Hnodir).
  split; [by intros e; rewrite make_node_refuses|].
  destruct (decide (p = file)) as [->|Hne].
  - destruct (make_node_makes_device file major minor mode uid gid w Hquiet Hdev Hnodir)
      as (node & Hnode & _ & Htype).
    unfold dir_at. rewrite Hnode. split; [done|].
    apply bool_decide_eq_false. intros Hdir. by rewrite Hdir in Htype.
  - pose proof (make_node_frame p file major minor mode uid gid w Hne) as Hframe.
    rewrite (dir_at_frame _ w) by done. by rewrite Hframe.
Qed.

Lemma create_symlink_holds p udev linkname w :
  test_run udev = false →
  held p w → held p (create_symlink NAME_SIZE udev_root udev linkname w).2.
Proof.
  intros Htest (Hquiet & [n Hn] & Hnodir).
  split; [by intros e; rewrite create_symlink_refuses|].
  destruct (decide (p = root_path NAME_SIZE udev_root linkname)) as [->|Hne].
  - destruct (create_symlink_places_link udev linkname w Htest Hquiet Hnodir)
      as (node & Hnode & Hmode & _).
    unfold dir_at. rewrite Hnode, Hmode. done.
  - destruct (create_symlink_stable NAME_SIZE udev_root p udev linkname w Hne) as [_ Hkept].
    apply Hkept in Hn as Hn'. unfold dir_at in *. rewrite Hn'. by rewrite Hn in Hnodir.
Qed.

Lemma create_node_link_over_node udev before w :
  let filename := root_path NAME_SIZE udev_root (name udev) in
  test_run udev = false →
  is_b_or_c (type udev) = true →
  Z.land (mode udev) S_IFMT = 0 →
  (∀ e, refuses w e = false) →
  dir_at filename w = false →
  strparts (symlink udev) = before ++ [name udev] →
  (create_node' udev w).1.1 = 0
  ∧ name (create_node' udev w).1.2 = name udev
  ∧ ∃ node, files (create_node' udev w).2 !! filename = Some node
      ∧ st_mode node = Z.lor S_IFLNK 511
      ∧ st_target node = link_target NAME_SIZE (name udev) (name udev).
Proof.
  intros filename Htest Htype Hmode Hquiet Hnodir Hlinks.
  destruct (type_bits_b_or_c _ Htype) as (bit & Hbits & Hbit).
  pose proof (device_bit_type _ _ Hmode Hbit) as Hdev.
  unfold create_node. rewrite Hbits. fold filename. simpl. rewrite Htest, Hlinks. simpl.
  set (udev' := set_mode (Z.lor (mode udev) bit) udev).
  set (uid := resolve_id getpwnam (owner udev)).
  set (gid := resolve_id getgrnam (group udev)).
  run.
  match goal with |- context [?f w] =>
    lazymatch f with (if has_slash _ then _ else _) => set (dirs := f w) end end.
  assert (∃ w0, (∀ e, refuses w0 e = false) ∧ dir_at filename w0 = false
                ∧ dirs = (tt, w0)) as (w0 & Hquiet0 & Hnodir0 & ->).
  { subst dirs. destruct (has_slash (name udev)).
    - pose proof (create_path_refuses filename w) as Hr.
      pose proof (create_path_frame filename filename w ltac:(lia)) as Hframe.
      destruct (create_path filename w) as [r w0]. exists w0. split_and!; [| |done].
      + intros e. simpl in Hr. by rewrite Hr.
      + by rewrite (dir_at_frame _ w w0).
    - by exists w. }
  (* the node is made, and from then on something other than a directory
     stands at its path *)
  pose proof (make_node_quiet filename (major udev) (minor udev) (mode udev') uid gid
                w0 Hquiet0 Hdev Hnodir0) as Hprimary.
  assert (held filename (make_node filename (major udev) (minor udev) (mode udev')
                           uid gid w0).2) as Hheld1.
  { split; [by intros e; rewrite make_node_refuses|].
    destruct (make_node_makes_device filename (major udev) (minor udev) (mode udev')
                uid gid w0 Hquiet0 Hdev Hnodir0) as (node & Hnode & _ & Hntype).
    unfold dir_at. rewrite Hnode. split; [done|].
    apply bool_decide_eq_false. intros Hdir. by rewrite Hdir in Hntype. }
  change (Z.lor (mode udev) bit) with (mode udev').
  destruct (make_node filename _ _ _ uid gid w0) as [r w1]. simpl in *. subst r. simpl.
  (* through the partition loop *)
  match goal with |- context [?f w1] =>
    lazymatch f with (if _ && _ then _ else _) => set (parts := f w1) end end.
  assert (∃ w2, held filename w2 ∧ parts = (tt, w2)) as (w2 & Hheld2 & ->).
  { subst parts. destruct (bool_decide (0 < partitions udev)); simpl.
    2: { by exists w1. }
    pose proof (for_each_invariant (held filename)
                  (create_partition NAME_SIZE udev' filename uid gid)
                  (seqZ 1 (partitions udev)) w1) as Hloop.
    destruct (for_each _ _ w1) as [[] w2]. exists w2. split; [|done].
    apply Hloop; [|done].
    intros i w' Hw'. rewrite create_partition_world. by apply make_node_holds. }
  (* through the symlinks before the last, which stands on the path of the
     node *)
  rewrite for_each_app.
  pose proof (for_each_invariant (held filename)
                (create_symlink NAME_SIZE udev_root udev') before w2
                (λ t w' Hw', create_symlink_holds filename udev' t w' Htest Hw') Hheld2)
    as Hheld3.
  destruct (for_each before _ w2) as [[] w3]. simpl in Hheld3.
  destruct Hheld3 as (Hquiet3 & _ & Hnodir3).
  simpl. run.
  destruct (create_symlink_places_link udev' (name udev) w3 Htest Hquiet3 Hnodir3)
    as (node & Hnode & Hlink).
  destruct (create_symlink _ _ udev' (name udev) w3) as [[] w4]. simpl in *.
  split_and!; [done|done|]. by exists node.
Qed.

(** A symlink token may clobber the node it was to point to: when the last
    token of the symlink list is the name of the node itself, on a system
    that refuses nothing where neither a symbolic link nor a directory
    stands at root/name before the call, udev_add_device still returns 0,
    records the device and writes [devname], but the entry at [devname] is
    then a symbolic link, made after the device node at that path was
    unlinked; for a name without '/' that fits its buffer, the link points
    to its own name. *)
Theorem symlink_named_as_node_replaces_it udev class_dev w before :
  let resolved := get_major_minor class_dev udev in
  let named := namedev_name_device resolved.2 class_dev in
  let u := named.2 in
  let filename := root_path NAME_SIZE udev_root (name u) in
  is_b_or_c (type udev) = true → resolved.1 = 0 → named.1 = 0 →
  is_b_or_c (type u) = true → test_run u = false →
  Z.land (mode u) S_IFMT = 0 →
  (∀ e, refuses w e = false) →
  plain_at filename w = true →
  strparts (symlink u) = before ++ [name u] →
  let result := add_device udev class_dev w in
  result.1.1 = 0
  ∧ devname result.1.2 = filename
  ∧ EvDbAdd ∈ trace result.2
  ∧ ∃ node, files result.2 !! devname result.1.2 = Some node
      ∧ Z.land (st_mode node) S_IFMT = S_IFLNK
      ∧ is_device_type (Z.land (st_mode node) S_IFMT) = false
      ∧ st_target node = link_target NAME_SIZE (name u) (name u)
      ∧ (count_slashes (name u) = 0%nat → (String.length (name u) < NAME_SIZE)%nat →
         st_target node = name u).
Proof.
  intros resolved named u filename Hin Hresolved Hnamed Htype Htest Hmode Hquiet
    Hplain Hlinks result. subst result.
  apply plain_at_no_dir in Hplain.
  unfold udev_add_device. rewrite Hin. fold resolved.
  rewrite bool_decide_false by (by intros ?). run.
  fold named. destruct named as [r u1] eqn:E. simpl in *. subst r u.
  rewrite bool_decide_false by (by intros ?). run.
  unfold add_named_device. rewrite Htype. run.
  destruct (create_node_link_over_node u1 before (log EvSelinuxInit (log EvNameDevice w))
              Htest Htype Hmode Hquiet Hplain Hlinks)
    as (Hr & Hname & node & Hnode & Hlink & Htarget).
  destruct (create_node' u1 _) as [[r u2] w1]. simpl in *. subst r.
  simpl. rewrite Hname. fold filename. split_and!; [done|done| |].
  - apply elem_of_app. left. apply elem_of_app. right. by left.
  - exists node. rewrite Hlink. split_and!; [done|done|done|done|].
    intros Hflat Hfit. rewrite Htarget.
    destruct (link_target_split NAME_SIZE (name u1) (name u1))
      as (dir & n' & t' & Hn & Ht & Hdir & ->); [lia|].
    rewrite Ht in Hflat at 1. rewrite count_slashes_app in Hflat.
    destruct Hdir as [->|[d ->]].
    + simpl in *. assert (count_slashes t' = 0%nat) as -> by lia. simpl.
      congruence.
    + pose proof (count_slashes_dir d). lia.
Qed.

End LinkOverNode.

(** sdb with the symlink list "disk1 sdb". *)
Lemma symlink_named_as_node_replaces_it_witness :
  ∃ node,
    Sys.files
      (UdevAdd.udev_add_device 256 256 "/udev" (Samples.name_as "sdb" "disk1 sdb" 0)
         Samples.db_ok Samples.nobody Samples.nobody Samples.sda MoreSamples.sdb_dev
         Samples.empty_world).2 !! "/udev/sdb" = Some node
    ∧ Z.land (Sys.st_mode node) Sys.S_IFMT = Sys.S_IFLNK.
Proof.
  destruct (symlink_named_as_node_replaces_it 256 256 "/udev"
              (Samples.name_as "sdb" "disk1 sdb" 0) Samples.db_ok Samples.nobody
              Samples.nobody Samples.sda MoreSamples.sdb_dev Samples.empty_world
              ["disk1"])
    as (_ & _ & _ & node & Hnode & Hlink & _).
  - reflexivity.
  - vm_compute. reflexivity.
  - reflexivity.
  - reflexivity.
  - reflexivity.
  - reflexivity.
  - intros e. reflexivity.
  - reflexivity.
  - vm_compute. reflexivity.
  - exists node. split; [exact Hnode|exact Hlink].
Defined.

(** ** make_node: the permissions and the owner of the node *)

Section MakeNodeOwner.
Import CStr Sys UdevAdd Notions MoreNotions.

Local Ltac run := unfold mbind, M_bind, mret, M_ret, emit; simpl.

Lemma chmod_perm_bits a m :
  Z.land (Z.lor (Z.land a S_IFMT) (Z.land m ALLPERMS)) ALLPERMS = Z.land m ALLPERMS.
Proof.
  rewrite Z.land_lor_distr_l, <- !Z.land_assoc.
  change (Z.land S_IFMT ALLPERMS) with 0. change (Z.land ALLPERMS ALLPERMS) with ALLPERMS.
  by rewrite Z.land_0_r, Z.lor_0_l.
Qed.

Lemma make_node_perms_quiet retval file mode uid gid w n :
  (∀ e, refuses w e = false) →
  files w !! file = Some n →
  let chowned := bool_decide (uid ≠ 0) || bool_decide (gid ≠ 0) in
  let w' := (make_node_perms retval file mode uid gid w).2 in
  (∃ node, files w' !! file = Some node
     ∧ Z.land (st_mode node) ALLPERMS = Z.land mode ALLPERMS
     ∧ st_uid node = (if chowned then chown_id uid (st_uid n) else st_uid n)
     ∧ st_gid node = (if chowned then chown_id gid (st_gid n) else st_gid n))
  ∧ last (trace w')
    = Some (if chowned then EvChown file uid gid else EvChmod file mode).
Proof.
  intros Hquiet Hn chowned w'. subst chowned w'.
  unfold make_node_perms, sys_chmod, sys_chown. run. rewrite Hn, Hquiet. simpl.
  destruct (bool_decide (uid ≠ 0) || bool_decide (gid ≠ 0)); simpl.
  - rewrite lookup_insert_eq, Hquiet. simpl. rewrite lookup_insert_eq.
    split; [|apply last_snoc].
    eexists. split; [done|]. simpl. by rewrite chmod_perm_bits.
  - rewrite lookup_insert_eq. split; [|apply last_snoc].
    eexists. split; [done|]. simpl. by rewrite chmod_perm_bits.
Qed.

Lemma make_node_create_quiet_owner file major minor mode uid gid w :
  (∀ e, refuses w e = false) →
  is_device_type (Z.land mode S_IFMT) = true →
  files w !! file = None →
  let chowned := bool_decide (uid ≠ 0) || bool_decide (gid ≠ 0) in
  let w' := (make_node_create file major minor mode uid gid w).2 in
  (∃ node, files w' !! file = Some node
     ∧ Z.land (st_mode node) ALLPERMS = Z.land mode ALLPERMS
     ∧ st_uid node = (if chowned then chown_id uid 0 else 0)
     ∧ st_gid node = (if chowned then chown_id gid 0 else 0))
  ∧ last (trace w')
    = Some (if chowned then EvChown file uid gid else EvChmod file mode).
Proof.
  intros Hquiet Hdev Hfile chowned w'. subst w'.
  unfold make_node_create, sys_mknod. run.
  rewrite Hfile, (mknod_type_device _ Hdev), Hquiet. simpl.
  match goal with |- context [make_node_perms 0 _ _ _ _ ?w'] => set (w1 := w') end.
  by apply (make_node_perms_quiet 0 file mode uid gid w1
              (Inode (next_ino w)
                 (Z.lor (Z.land mode S_IFMT)
                    (Z.land (Z.land mode ALLPERMS) (Z.lnot (umask w))))
                 (if is_device_type (Z.land mode S_IFMT) then makedev major minor else 0)
                 0 0 "")); [|apply lookup_insert_eq].
Qed.

Lemma make_node_quiet_owner file major minor mode uid gid w :
  (∀ e, refuses w e = false) →
  is_device_type (Z.land mode S_IFMT) = true →
  dir_at file w = false →
  let before := owner_before file major minor w in
  let chowned := bool_decide (uid ≠ 0) || bool_decide (gid ≠ 0) in
  let w' := (make_node file major minor mode uid gid w).2 in
  (∃ node, files w' !! file = Some node
     ∧ Z.land (st_mode node) ALLPERMS = Z.land mode ALLPERMS
     ∧ st_uid node = (if chowned then chown_id uid before.1 else before.1)
     ∧ st_gid node = (if chowned then chown_id gid before.2 else before.2))
  ∧ last (trace w')
    = Some (if chowned then EvChown file uid gid else EvChmod file mode).
Proof.
  intros Hquiet Hdev Hnodir before chowned w'. subst before chowned w'.
  unfold dir_at in Hnodir. unfold owner_before, make_node, sys_stat. run.
  destruct (files w !! file) as [old|] eqn:Hfile.
  2: { by apply make_node_create_quiet_owner. }
  destruct (_ && _); run.
  - by apply make_node_perms_quiet.
  - unfold sys_unlink. simpl. rewrite Hfile, Hquiet, Hnodir. simpl.
    apply make_node_create_quiet_owner; [done|done|]. simpl. apply lookup_delete_eq.
Qed.


End MakeNodeOwner.


(** ** The owner field, resolved through the klibc shim *)

Section OwnerThroughKlibc.
Import CStr Klibc Sys UdevAdd Notions MoreNotions.

Variable LINE_SIZE : nat.
Variable file_map : string → option string.

(** create_node with the klibc shim as its getpwnam: an owner field that is
    not a number and names nobody of the passwd file resolves to
    [(uid_t) -1] = 4294967295, not to 0 (the shim never returns NULL, so the
    `specified user unknown` branch is not taken).  make_node, called with
    that uid for a block or char mode on a system that refuses nothing,
    where neither a symbolic link nor a directory stands at the path, then
    ends with the request chown(file, 4294967295, gid), and the owner of the
    node is left as it was: that of a node it preserved, 0 for a node it
    made. *)
Theorem unlisted_owner_is_left_alone field :
  field ≠ "" → (strtoul 64 field).2 ≠ "" →
  absent file_map field PW_FILE →
  let uid := resolve_id (klibc_uid LINE_SIZE file_map) field in
  uid = 4294967295
  ∧ ∀ file major minor mode gid w,
      (∀ e, refuses w e = false) →
      is_device_type (Z.land mode S_IFMT) = true →
      plain_at file w = true →
      let w' := (make_node file major minor mode uid gid w).2 in
      last (trace w') = Some (EvChown file 4294967295 gid)
      ∧ ∃ node, files w' !! file = Some node
          ∧ st_uid node = (owner_before file major minor w).1.
Proof.
  intros Hfield Hname Habsent uid.
  assert (uid = 4294967295) as Huid.
  { subst uid. unfold resolve_id. rewrite bool_decide_false by done.
    destruct (strtoul 64 field) as [id endptr]. simpl in Hname.
    rewrite bool_decide_false by done.
    unfold klibc_uid, getpwnam. simpl.
    rewrite get_id_by_name_absent by done.
    by rewrite to_id_minus_one by lia. }
  split; [done|]. rewrite Huid. clear uid Huid.
  intros file major minor mode gid w Hquiet Hdev Hplain%plain_at_no_dir w'. subst w'.
  destruct (make_node_quiet_owner file major minor mode 4294967295 gid w Hquiet Hdev Hplain)
    as [(node & Hnode & _ & Howner & _) Hlast].
  rewrite (bool_decide_true (4294967295 ≠ 0)) in Howner, Hlast by done.
  simpl in Howner, Hlast. split; [done|].
  exists node. split; [done|]. rewrite Howner.
  unfold chown_id. by rewrite bool_decide_true.
Qed.

End OwnerThroughKlibc.

(** greg is in no line of the sample passwd file; ttyS0 (4, 64), owned by
    uid 500, is asked for again with greg as its owner. *)
Lemma unlisted_owner_is_left_alone_witness :
  UdevAdd.resolve_id (MoreNotions.klibc_uid 512 Samples.passwd_file) "greg" = 4294967295
  ∧ ∃ node,
      Sys.files
        (UdevAdd.make_node "/udev/ttyS0" 4 64 (Z.lor Sys.S_IFCHR 432)
           (UdevAdd.resolve_id (MoreNotions.klibc_uid 512 Samples.passwd_file) "greg") 0
           MoreSamples.ttyS0_world).2 !! "/udev/ttyS0" = Some node
      ∧ Sys.st_uid node = 500.
Proof.
  destruct (unlisted_owner_is_left_alone 512 Samples.passwd_file "greg") as [Huid Hnode].
  - discriminate.
  - vm_compute. discriminate.
  - vm_compute. repeat constructor; discriminate.
  - split; [exact Huid|].
    destruct (Hnode "/udev/ttyS0" 4 64 (Z.lor Sys.S_IFCHR 432) 0 MoreSamples.ttyS0_world)
      as (_ & node & Hfile & Howner).
    + intros e. reflexivity.
    + reflexivity.
    + reflexivity.
    + exists node. split; [exact Hfile|exact Howner].
Defined.
